(** * The ETL consolidation service of lab_5 (lab_5.py)

    A shallow embedding of [transform_data] and [get_consolidated_data]:
    the cleaning pass over source A, the update-or-insert merge of source B,
    the price-change computation, and the read-back of the persisted file;
    and of the service around them: [extract_data], [load_data] and
    [run_etl_process] over the three files they touch.

    Conventions of the embedding:
    - a Python [float] is a binary64 primitive float, a Python [int] is [Z];
    - a [str] is the [string] of the bytes of its UTF-8 encoding, the
      encoding the files are read and written in (a [str] that has none,
      one with a lone surrogate, is left out); its length ([py_len]) is the
      number of its characters, not of its bytes, and [lower] follows
      [str.lower()] as far as a comparison with an ASCII word can tell;
    - the dictionary [transformed_products] is an association list in
      insertion order (the order [dict.values()] returns);
    - a [try] body is a computation that either ends or raises, and carries
      the state reached at the raise, since assignments made before an
      exception stay;
    - a file is what reading it meets: nothing, text that [json.load]
      refuses with [JSONDecodeError], or a JSON value; a file that is there
      and cannot be opened or decoded is not among them, so a statement
      about every disk is about the disks whose files are in one of these
      states; how a write ends (it goes through, or fails with an
      [OSError]) is an input of the function that writes;
    - what the pydantic library does to a raw field is an interface
      ([Pydantic] below): the general theorems hold for each coercion
      policy, and the concrete runs use the policy [strict]. *)

From Stdlib Require Import ZArith List String Ascii Bool Lia Floats Sorted.
Import ListNotations.
Open Scope string_scope.
Open Scope list_scope.
Open Scope Z_scope.

Set Implicit Arguments.
Set Warnings "-register-all".

(** ** Exceptions *)

Inductive exn : Type :=
| AttributeError
| TypeError
| ValueError
| ValidationError
| FileNotFoundError
| JSONDecodeError
| HTTPException (status_code : Z).

(** The result of evaluating an expression: a value, or a raised exception. *)
Inductive py (A : Type) : Type :=
| Ret (a : A)
| Raise (e : exn).
Arguments Ret {A} a.
Arguments Raise {A} e.

Definition bind {A B : Type} (m : py A) (k : A -> py B) : py B :=
  match m with
  | Ret a => k a
  | Raise e => Raise e
  end.

Declare Scope py_scope.
Delimit Scope py_scope with py.
Notation "x <- m ;; k" := (bind m (fun x => k))
  (at level 61, m at next level, right associativity) : py_scope.
Open Scope py_scope.

Definition of_option {A : Type} (e : exn) (o : option A) : py A :=
  match o with
  | Some a => Ret a
  | None => Raise e
  end.

(** ** Raw records: what [json.load] returns *)

Inductive json : Type :=
| JNull
| JBool (b : bool)
| JInt (z : Z)
| JFloat (f : float)
| JStr (s : string)
| JList (l : list json)
| JDict (d : list (string * json)).

(** The entry of a key; the keys of a dict are distinct. *)
Fixpoint assoc (k : string) (d : list (string * json)) : option json :=
  match d with
  | [] => None
  | (k', v) :: d' => if String.eqb k k' then Some v else assoc k d'
  end.

(** [raw.get(key, default)]: only a dict has the method. *)
Definition py_get (raw : json) (key : string) (default : json) : py json :=
  match raw with
  | JDict d =>
      match assoc key d with
      | Some v => Ret v
      | None => Ret default
      end
  | _ => Raise AttributeError
  end.

(** [v <= 0] on a raw value: numbers compare ([bool] is an [int]), the
    rest raises [TypeError]. *)
Definition py_le_zero (v : json) : py bool :=
  match v with
  | JInt z => Ret (z <=? 0)
  | JBool b => Ret (negb b)
  | JFloat f => Ret (PrimFloat.leb f 0%float)
  | _ => Raise TypeError
  end.

(** ** Floats *)

(** The float nearest to an integer (ties to even), as [float(n)] gives it. *)
Definition float_of_Z (z : Z) : float :=
  SF2Prim (binary_normalize prec emax z 0 false).

(** [round(x, 2)] of CPython: the exact value of [x] is rounded to two
    decimals, ties to even, and the decimal [n / 100] obtained is converted
    back to the nearest float.  Zeros, infinities and NaN round to
    themselves.  From [2^53 / 100] on a float is more than 0.01 away from
    its neighbours, so it is the float nearest to its own rounding. *)
Definition round_half_even (num den : Z) : Z :=
  let q := num / den in
  let r := num mod den in
  if 2 * r <? den then q
  else if den <? 2 * r then q + 1
  else if Z.even q then q else q + 1.

Definition py_round2 (x : float) : float :=
  match Prim2SF x with
  | S754_finite s m e =>
      if 0 <=? e then x
      else
        let n := round_half_even (100 * Zpos m) (2 ^ (- e)) in
        if 2 ^ 53 <=? n then x
        else
          let q := PrimFloat.div (float_of_Z n) 100%float in
          if s then PrimFloat.opp q else q
  | _ => x
  end.

(** ** Strings *)

(** A byte that goes on a character begun before it ([10xxxxxx]). *)
Definition is_continuation (c : ascii) : bool :=
  let n := N_of_ascii c in (128 <=? n)%N && (n <? 192)%N.

(** [len(s)]: the characters of [s], one for each byte that begins one. *)
Fixpoint py_len (s : string) : nat :=
  match s with
  | EmptyString => 0%nat
  | String c s' => if is_continuation c then py_len s' else S (py_len s')
  end.

(** [str.lower()], as far as a comparison with an ASCII word can tell.
    The ASCII capitals become small letters, and so does the Kelvin sign
    (U+212A, the bytes E2 84 AA), which [str.lower()] turns into [k]: it is
    the one character outside ASCII whose lowering is all ASCII.  Any other
    character outside ASCII is left as it is; [str.lower()] may give another
    character for it, but never an all-ASCII result (U+0130 gives [i]
    followed by U+0307).  So [lower s] and [s.lower()] are the same string
    whenever one of them is ASCII, and when neither is, the tests of the
    source, which compare with ASCII words, fail on both. *)
Definition lower_ascii (c : ascii) : ascii :=
  let n := N_of_ascii c in
  if (65 <=? n)%N && (n <=? 90)%N then ascii_of_N (n + 32) else c.

Definition is_kelvin_sign (c1 c2 c3 : ascii) : bool :=
  (N_of_ascii c1 =? 226)%N && (N_of_ascii c2 =? 132)%N && (N_of_ascii c3 =? 170)%N.

Fixpoint lower (s : string) : string :=
  match s with
  | EmptyString => EmptyString
  | String c s' =>
      match s' with
      | String c2 (String c3 s'') =>
          if is_kelvin_sign c c2 c3 then String "k" (lower s'')
          else String (lower_ascii c) (lower s')
      | _ => String (lower_ascii c) (lower s')
      end
  end.

(** [x in [s1, ..., sn]] for strings. *)
Definition str_in (x : string) (l : list string) : bool :=
  existsb (String.eqb x) l.

(** The chain of [if]/[elif] that rewrites a category.  The source writes
    it out three times (source A, update, insertion) with the same tests and
    the same names; in source A the missing [else] leaves the category as it
    is, which is what the [else] of the other two assigns. *)
Definition standardize (category : string) : string :=
  if str_in (lower category) ["laptops"; "notebooks"] then "Ноутбуки"
  else if str_in (lower category) ["smartphones"; "phones"] then "Смартфони"
  else if str_in (lower category) ["audio"; "headphones"] then "Аудіотехніка"
  else if str_in (lower category) ["tablets"] then "Планшети"
  else if str_in (lower category) ["wearables"] then "Носимі пристрої"
  else category.

(** Truth value of an [Optional[str]]: [None] and the empty string are false. *)
Definition truthy (o : option string) : bool :=
  match o with
  | Some (String _ _) => true
  | _ => false
  end.

(** [if o: x = f(o)], else [x] keeps its value. *)
Definition if_truthy {A : Type} (o : option string) (f : string -> A) (keep : A) : A :=
  match o with
  | Some s => if truthy o then f s else keep
  | None => keep
  end.

Definition is_not_None {A : Type} (o : option A) : bool :=
  match o with
  | Some _ => true
  | None => false
  end.

(** ** The pydantic models *)

(** What pydantic makes of a raw value given to a field annotated [int],
    [float] or [str].  The policy depends on the library's version and mode
    (whether ["12"] is an [int], whether [5.7] is); the values that already
    have the annotated type are accepted as they are under each of them. *)
Class Pydantic : Type := {
  int_field : json -> option Z;
  float_field : json -> option float;
  str_field : json -> option string;
  int_field_int : forall z, int_field (JInt z) = Some z;
  float_field_float : forall f, float_field (JFloat f) = Some f;
  float_field_int : forall z,
    Z.abs z <= 2 ^ 53 -> float_field (JInt z) = Some (float_of_Z z);
  str_field_str : forall s, str_field (JStr s) = Some s
}.

Record ProductSourceA : Type := {
  a_name : string;
  a_category : string;
  a_price : float;
  a_stock : Z;
  a_id : Z
}.

Record ProductSourceB : Type := {
  product_id : Z;
  b_name : option string;
  b_category : option string;
  b_description : option string;
  b_supplier : option string;
  old_price : option float;
  b_price : option float;
  b_stock : option Z
}.

Record ConsolidatedProduct : Type := {
  id : Z;
  name : string;
  category : string;
  price : float;
  stock : Z;
  description : option string;
  supplier : option string;
  price_change_percentage : option float
}.

(** The constraints of [ProductBase]:
    [name: min_length=3], [price: gt=0], [stock: ge=0]. *)
Definition ProductBase_ok (name : string) (price : float) (stock : Z) : bool :=
  (3 <=? Z.of_nat (py_len name))
  && PrimFloat.ltb 0%float price
  && (0 <=? stock).

(** [ConsolidatedProduct(id=..., name=..., ...)] on typed values. *)
Definition ConsolidatedProduct_init (id : Z) (name category : string)
    (price : float) (stock : Z) (description supplier : option string)
  : py ConsolidatedProduct :=
  if ProductBase_ok name price stock
  then Ret {| id := id; name := name; category := category; price := price;
              stock := stock; description := description;
              supplier := supplier; price_change_percentage := None |}
  else Raise ValidationError.

Section Validation.
Context {P : Pydantic}.

(** A field with no default: it must be there and not [null]. *)
Definition required {A : Type} (d : list (string * json)) (key : string)
    (field : json -> option A) : py A :=
  match assoc key d with
  | None | Some JNull => Raise ValidationError
  | Some v => of_option ValidationError (field v)
  end.

(** An [Optional[...] = None] field. *)
Definition optional {A : Type} (d : list (string * json)) (key : string)
    (field : json -> option A) : py (option A) :=
  match assoc key d with
  | None | Some JNull => Ret None
  | Some v => a <- of_option ValidationError (field v);; Ret (Some a)
  end.

(** Unpacking a raw record into keyword arguments, as each model call
    does: only a mapping can be unpacked. *)
Definition unpack (raw : json) : py (list (string * json)) :=
  match raw with
  | JDict d => Ret d
  | _ => Raise TypeError
  end.

Definition ProductSourceA_init (raw : json) : py ProductSourceA :=
  d <- unpack raw;;
  name <- required d "name" str_field;;
  category <- required d "category" str_field;;
  price <- required d "price" float_field;;
  stock <- required d "stock" int_field;;
  id <- required d "id" int_field;;
  if ProductBase_ok name price stock
  then Ret {| a_name := name; a_category := category; a_price := price;
              a_stock := stock; a_id := id |}
  else Raise ValidationError.

Definition ProductSourceB_init (raw : json) : py ProductSourceB :=
  d <- unpack raw;;
  product_id <- required d "product_id" int_field;;
  name <- optional d "name" str_field;;
  category <- optional d "category" str_field;;
  description <- optional d "description" str_field;;
  supplier <- optional d "supplier" str_field;;
  old_price <- optional d "old_price" float_field;;
  price <- optional d "price" float_field;;
  stock <- optional d "stock" int_field;;
  Ret {| product_id := product_id; b_name := name; b_category := category;
         b_description := description; b_supplier := supplier;
         old_price := old_price; b_price := price; b_stock := stock |}.

(** [ConsolidatedProduct] built from a raw record read back from the file. *)
Definition ConsolidatedProduct_parse (raw : json) : py ConsolidatedProduct :=
  d <- unpack raw;;
  name <- required d "name" str_field;;
  category <- required d "category" str_field;;
  price <- required d "price" float_field;;
  stock <- required d "stock" int_field;;
  id <- required d "id" int_field;;
  description <- optional d "description" str_field;;
  supplier <- optional d "supplier" str_field;;
  pct <- optional d "price_change_percentage" float_field;;
  if ProductBase_ok name price stock
  then Ret {| id := id; name := name; category := category; price := price;
              stock := stock; description := description;
              supplier := supplier; price_change_percentage := pct |}
  else Raise ValidationError.
End Validation.

(** ** Statements: a state that survives a raise, and the log *)

Inductive message : Type :=
| SkippingZeroPriceStock (id : json)
| SkippingInvalidA (raw : json) (e : exn)
| UpdatingExisting (product_id : Z)
| AddingNew (product_id : Z)
| SkippingMissingCore (raw : json)
| SkippingInvalidB (raw : json) (e : exn).

Inductive log_entry : Type :=
| Info (m : message)
| Warning (m : message).

(** A statement runs from a state, reaches a state, writes log lines, and
    either ends or raises. *)
Definition M (S A : Type) : Type := S -> S * list log_entry * py A.

Definition ret {S A : Type} (a : A) : M S A := fun s => (s, [], Ret a).

Definition mbind {S A B : Type} (m : M S A) (k : A -> M S B) : M S B :=
  fun s =>
    match m s with
    | (s', out, Ret a) =>
        match k a s' with
        | (s'', out', r) => (s'', out ++ out', r)
        end
    | (s', out, Raise e) => (s', out, Raise e)
    end.

Definition lift {S A : Type} (e : py A) : M S A := fun s => (s, [], e).
Definition get {S : Type} : M S S := fun s => (s, [], Ret s).
Definition modify {S : Type} (f : S -> S) : M S unit := fun s => (f s, [], Ret tt).
Definition logger {S : Type} (l : log_entry) : M S unit := fun s => (s, [l], Ret tt).

Declare Scope stm_scope.
Delimit Scope stm_scope with stm.
Notation "x <- m ;; k" := (mbind m (fun x => k))
  (at level 61, m at next level, right associativity) : stm_scope.
Notation "m ;; k" := (mbind m (fun _ => k))
  (at level 61, right associativity) : stm_scope.

(** [try: body / except Exception as e: logger.warning(...)]: the exception
    is logged and dropped, the state reached is kept. *)
Definition try_except {S : Type} (body : M S unit) (handler : exn -> log_entry)
    (s : S) : S * list log_entry :=
  match body s with
  | (s', out, Ret _) => (s', out)
  | (s', out, Raise e) => (s', out ++ [handler e])
  end.

(** [for x in xs: step(x)] *)
Fixpoint for_each {S X : Type} (xs : list X) (step : X -> S -> S * list log_entry)
    (s : S) : S * list log_entry :=
  match xs with
  | [] => (s, [])
  | x :: xs' =>
      match step x s with
      | (s', out) =>
          match for_each xs' step s' with
          | (s'', out') => (s'', out ++ out')
          end
      end
  end.

(** ** The dictionary [transformed_products] *)

Definition products : Type := list (Z * ConsolidatedProduct).

Fixpoint dict_get (k : Z) (d : products) : option ConsolidatedProduct :=
  match d with
  | [] => None
  | (k', v) :: d' => if k =? k' then Some v else dict_get k d'
  end.

(** [d[k] = v]: a key that is there keeps its place, a new one goes last. *)
Fixpoint dict_set (k : Z) (v : ConsolidatedProduct) (d : products) : products :=
  match d with
  | [] => [(k, v)]
  | (k', v') :: d' => if k =? k' then (k, v) :: d' else (k', v') :: dict_set k v d'
  end.

Definition keys (d : products) : list Z := map fst d.
Definition values (d : products) : list ConsolidatedProduct := map snd d.

(** [max(xs)]: raises on an empty sequence. *)
Definition py_max (xs : list Z) : py Z :=
  match xs with
  | [] => Raise ValueError
  | x :: xs' => Ret (fold_left Z.max xs' x)
  end.

(** ** [transform_data], part 1: source A *)

Section Transform.
Context {P : Pydantic}.

(** [raw.get(key, 0) <= 0] *)
Definition not_positive (raw : json) (key : string) : py bool :=
  v <- py_get raw key (JInt 0);; py_le_zero v.

(** [raw.get("price", 0) <= 0 or raw.get("stock", 0) <= 0]: the stock is
    looked at only when the price is positive. *)
Definition zero_price_or_stock (raw : json) : py bool :=
  bad_price <- not_positive raw "price";;
  if bad_price then Ret true else not_positive raw "stock".

(** The body of the [try] in the loop over [data_a]. *)
Definition source_A_body (item_a_raw : json) : M products unit :=
  (skip <- lift (zero_price_or_stock item_a_raw);;
   if skip then
     i <- lift (py_get item_a_raw "id" JNull);;
     logger (Info (SkippingZeroPriceStock i))
   else
     item_a <- lift (ProductSourceA_init item_a_raw);;
     product <- lift (ConsolidatedProduct_init (a_id item_a) (a_name item_a)
                        (standardize (a_category item_a))
                        (a_price item_a) (a_stock item_a) None None);;
     modify (dict_set (a_id item_a) product))%stm.

Definition source_A_step (item_a_raw : json) (tp : products)
  : products * list log_entry :=
  try_except (source_A_body item_a_raw)
             (fun e => Warning (SkippingInvalidA item_a_raw e)) tp.

Definition clean_and_seed_run (data_a : list json) : products * list log_entry :=
  for_each data_a source_A_step [].

Definition clean_and_seed (data_a : list json) : products :=
  fst (clean_and_seed_run data_a).

(** ** [transform_data], part 2: source B *)

Record merge_state : Type := {
  transformed_products : products;
  current_max_id : Z
}.

(** The branch [if product_id in transformed_products]: the assignments to
    [existing_product], in the order of the source. *)
Definition update_existing (existing_product : ConsolidatedProduct)
    (item_b : ProductSourceB) : ConsolidatedProduct :=
  let e := existing_product in
  let name1 := if_truthy (b_name item_b) (fun n => n) (name e) in
  let category1 := if_truthy (b_category item_b) standardize (category e) in
  let description1 := if_truthy (b_description item_b) Some (description e) in
  let supplier1 := if_truthy (b_supplier item_b) Some (supplier e) in
  let new_price_b :=
    match b_price item_b with Some p => p | None => price e end in
  let old_price_for_calc :=
    match old_price item_b with Some p => p | None => price e end in
  let pct1 :=
    if negb (PrimFloat.eqb old_price_for_calc 0%float)
       && negb (PrimFloat.eqb new_price_b old_price_for_calc)
    then Some (py_round2
                 (PrimFloat.mul
                    (PrimFloat.div (PrimFloat.sub new_price_b old_price_for_calc)
                                   old_price_for_calc)
                    100%float))
    else price_change_percentage e in
  let price1 :=
    match b_price item_b with Some p => p | None => price e end in
  let stock1 :=
    match b_stock item_b with Some s => s | None => stock e end in
  {| id := id e; name := name1; category := category1; price := price1;
     stock := stock1; description := description1; supplier := supplier1;
     price_change_percentage := pct1 |}.

(** [all([item_b.name, item_b.category, item_b.price is not None,
          item_b.stock is not None])] *)
Definition has_core_fields (item_b : ProductSourceB) : bool :=
  truthy (b_name item_b) && truthy (b_category item_b)
  && is_not_None (b_price item_b) && is_not_None (b_stock item_b).

Definition set_products (f : products -> products) (st : merge_state) : merge_state :=
  {| transformed_products := f (transformed_products st);
     current_max_id := current_max_id st |}.

(** [current_max_id += 1] *)
Definition next_id (st : merge_state) : merge_state :=
  {| transformed_products := transformed_products st;
     current_max_id := current_max_id st + 1 |}.

(** The [else] branch: a new product.  The counter is advanced before the
    model is built. *)
Definition add_new (item_b_raw : json) (item_b : ProductSourceB)
  : M merge_state unit :=
  (logger (Info (AddingNew (product_id item_b)));;
   if negb (has_core_fields item_b) then
     logger (Warning (SkippingMissingCore item_b_raw))
   else
     match b_name item_b, b_category item_b, b_price item_b, b_stock item_b with
     | Some name_b, Some category_b, Some price_b, Some stock_b =>
         modify next_id;;
         st <- get;;
         let new_id := current_max_id st in
         product <- lift (ConsolidatedProduct_init new_id name_b
                            (standardize category_b) price_b stock_b
                            (b_description item_b) (b_supplier item_b));;
         modify (set_products (dict_set new_id product))
     | _, _, _, _ => ret tt
     end)%stm.

(** The body of the [try] in the loop over [data_b]. *)
Definition source_B_body (item_b_raw : json) : M merge_state unit :=
  (item_b <- lift (ProductSourceB_init item_b_raw);;
   st <- get;;
   match dict_get (product_id item_b) (transformed_products st) with
   | Some existing_product =>
       logger (Info (UpdatingExisting (product_id item_b)));;
       modify (set_products
                 (dict_set (product_id item_b)
                           (update_existing existing_product item_b)))
   | None => add_new item_b_raw item_b
   end)%stm.

Definition source_B_step (item_b_raw : json) (st : merge_state)
  : merge_state * list log_entry :=
  try_except (source_B_body item_b_raw)
             (fun e => Warning (SkippingInvalidB item_b_raw e)) st.

(** [max(transformed_products.keys()) if transformed_products else 0] *)
Definition initial_max_id (tp : products) : py Z :=
  match tp with
  | [] => Ret 0
  | _ => py_max (keys tp)
  end.

Definition merge_patches_run (seed : products) (data_b : list json)
  : py (merge_state * list log_entry) :=
  m <- initial_max_id seed;;
  Ret (for_each data_b source_B_step
                {| transformed_products := seed; current_max_id := m |}).

Definition merge_patches (seed : products) (data_b : list json) : py products :=
  r <- merge_patches_run seed data_b;;
  Ret (transformed_products (fst r)).

(** The whole of [transform_data], with the lines it logs. *)
Definition transform_data_run (data_a data_b : list json)
  : py (list ConsolidatedProduct * list log_entry) :=
  match clean_and_seed_run data_a with
  | (seed, log_a) =>
      r <- merge_patches_run seed data_b;;
      Ret (values (transformed_products (fst r)), log_a ++ snd r)
  end.

Definition transform_data (data_a data_b : list json) : py (list ConsolidatedProduct) :=
  r <- transform_data_run data_a data_b;;
  Ret (fst r).
End Transform.

(** ** The consolidated file: [load_data] and [get_consolidated_data] *)

(** What reading a path meets: no file ([open] raises
    [FileNotFoundError]), a file whose text [json.load] refuses (it raises
    [JSONDecodeError]), or a file holding a JSON value.  A file that exists
    and cannot be opened, or whose bytes are not UTF-8, raises other
    exceptions ([PermissionError], [UnicodeDecodeError]); no state stands
    for such a file. *)
Inductive file : Type :=
| Absent
| Garbled
| Holds (data : json).

Definition open_and_load (f : file) : py json :=
  match f with
  | Absent => Raise FileNotFoundError
  | Garbled => Raise JSONDecodeError
  | Holds data => Ret data
  end.

Definition opt_json {A : Type} (inj : A -> json) (o : option A) : json :=
  match o with
  | Some a => inj a
  | None => JNull
  end.

(** [product.dict()], as [json.dump] writes it and [json.load] reads it back. *)
Definition to_dict (p : ConsolidatedProduct) : json :=
  JDict [("name", JStr (name p));
         ("category", JStr (category p));
         ("price", JFloat (price p));
         ("stock", JInt (stock p));
         ("id", JInt (id p));
         ("description", opt_json JStr (description p));
         ("supplier", opt_json JStr (supplier p));
         ("price_change_percentage", opt_json JFloat (price_change_percentage p))].

(** [load_data]: when the write goes through, the file holds the list. *)
Definition load_data (data : list ConsolidatedProduct) : file :=
  Holds (JList (map to_dict data)).

(** The characters of a string, each a string of its own: a byte that goes
    on a character stays with the byte that began it. *)
Fixpoint characters (s : string) : list string :=
  match s with
  | EmptyString => []
  | String c s' =>
      match characters s' with
      | String c' x :: rest =>
          if is_continuation c' then String c (String c' x) :: rest
          else String c EmptyString :: String c' x :: rest
      | rest => String c EmptyString :: rest
      end
  end.

Definition chars (s : string) : list json := map JStr (characters s).

(** [for item in data]: a list gives its items, a dict its keys, a string
    its characters; nothing else can be iterated. *)
Definition py_iter (data : json) : py (list json) :=
  match data with
  | JList l => Ret l
  | JDict d => Ret (map (fun kv => JStr (fst kv)) d)
  | JStr s => Ret (chars s)
  | _ => Raise TypeError
  end.

Fixpoint map_py {A B : Type} (f : A -> py B) (l : list A) : py (list B) :=
  match l with
  | [] => Ret []
  | a :: l' => b <- f a;; bs <- map_py f l';; Ret (b :: bs)
  end.

Section Service.
Context {P : Pydantic}.

(** The three [except] clauses, in their order. *)
Definition get_consolidated_data (f : file) : py (list ConsolidatedProduct) :=
  match (data <- open_and_load f;;
         items <- py_iter data;;
         map_py ConsolidatedProduct_parse items) with
  | Ret validated_data => Ret validated_data
  | Raise FileNotFoundError => Raise (HTTPException 404)
  | Raise JSONDecodeError => Raise (HTTPException 500)
  | Raise _ => Raise (HTTPException 500)
  end.
End Service.

(** * Notions used to state the properties *)

(** Every name the chain of tests looks for. *)
Definition synonyms : list string :=
  ["laptops"; "notebooks"; "smartphones"; "phones"; "audio"; "headphones";
   "tablets"; "wearables"].

(** The record that source A puts in the mapping for a validated candidate. *)
Definition consolidated_of (a : ProductSourceA) : ConsolidatedProduct :=
  {| id := a_id a; name := a_name a; category := standardize (a_category a);
     price := a_price a; stock := a_stock a; description := None;
     supplier := None; price_change_percentage := None |}.

Section Notions.
Context {P : Pydantic}.

(** A candidate that source A takes: positive price and stock on the raw
    record, and a record that [ProductSourceA] accepts. *)
Definition accepted (raw : json) (a : ProductSourceA) : Prop :=
  zero_price_or_stock raw = Ret false /\ ProductSourceA_init raw = Ret a.

Definition comes_from (data_a : list json) (tp : products) : Prop :=
  forall k r, In (k, r) tp ->
    exists raw a, In raw data_a /\ accepted raw a
                  /\ k = a_id a /\ r = consolidated_of a.

(** The raw record of source A fails: the test of price and stock raises,
    or the record passes it and [ProductSourceA] refuses it. *)
Definition fails_A (raw : json) (e : exn) : Prop :=
  zero_price_or_stock raw = Raise e
  \/ (zero_price_or_stock raw = Ret false /\ ProductSourceA_init raw = Raise e).

End Notions.

(** A number that is at most 0; [False] is the number 0. *)
Definition at_most_zero (v : json) : Prop :=
  match v with
  | JInt z => z <= 0
  | JFloat f => PrimFloat.leb f 0%float = true
  | JBool b => b = false
  | _ => False
  end.

(** The raw record gives a price or a stock that is at most 0. *)
Definition price_or_stock_at_most_zero (d : list (string * json)) : Prop :=
  exists v, (assoc "price" d = Some v \/ assoc "stock" d = Some v)
            /\ at_most_zero v.

(** The keys are distinct, none is above the counter, and each record
    carries its key as [id]. *)
Definition well_keyed (st : merge_state) : Prop :=
  NoDup (keys (transformed_products st))
  /\ (forall k, In k (keys (transformed_products st)) -> k <= current_max_id st)
  /\ (forall k r, In (k, r) (transformed_products st) -> id r = k).

(** An empty string read as no value. *)
Definition blank_as_absent (o : option string) : option string :=
  match o with
  | Some EmptyString => None
  | _ => o
  end.

Definition without_blanks (b : ProductSourceB) : ProductSourceB :=
  {| product_id := product_id b;
     b_name := blank_as_absent (b_name b);
     b_category := blank_as_absent (b_category b);
     b_description := blank_as_absent (b_description b);
     b_supplier := blank_as_absent (b_supplier b);
     old_price := old_price b;
     b_price := b_price b;
     b_stock := b_stock b |}.

(** ** A coercion policy to run the model with

    The narrowest policy: only the values the laws of [Pydantic] speak of
    are accepted.  The concrete runs below use such values only, on which
    every policy agrees. *)
Definition strict_int (v : json) : option Z :=
  match v with
  | JInt z => Some z
  | _ => None
  end.

Definition strict_float (v : json) : option float :=
  match v with
  | JFloat f => Some f
  | JInt z => if Z.abs z <=? 2 ^ 53 then Some (float_of_Z z) else None
  | _ => None
  end.

Definition strict_str (v : json) : option string :=
  match v with
  | JStr s => Some s
  | _ => None
  end.

Lemma strict_float_int (z : Z) :
  Z.abs z <= 2 ^ 53 -> strict_float (JInt z) = Some (float_of_Z z).
Proof.
  intros H. unfold strict_float.
  destruct (Z.leb_spec (Z.abs z) (2 ^ 53)) as [_ | Hlt]; [reflexivity | lia].
Qed.

Definition strict : Pydantic := {|
  int_field := strict_int;
  float_field := strict_float;
  str_field := strict_str;
  int_field_int := fun z => eq_refl;
  float_field_float := fun f => eq_refl;
  float_field_int := strict_float_int;
  str_field_str := fun s => eq_refl
|}.

(** ** Concrete records *)

Definition laptop_A : json :=
  JDict [("id", JInt 1); ("name", JStr "Laptop Alpha"); ("category", JStr "Laptops");
         ("price", JFloat 100); ("stock", JInt 5)].

Definition laptop : ConsolidatedProduct :=
  {| id := 1; name := "Laptop Alpha"; category := "Ноутбуки"; price := 100;
     stock := 5; description := None; supplier := None;
     price_change_percentage := None |}.

Definition seeded : merge_state :=
  {| transformed_products := [(1, laptop)]; current_max_id := 1 |}.

(** [{"product_id": 1, "old_price": 100, "price": 90}] *)
Definition cheaper_B : json :=
  JDict [("product_id", JInt 1); ("old_price", JFloat 100); ("price", JFloat 90)].

Definition cheaper : ProductSourceB :=
  {| product_id := 1; b_name := None; b_category := None; b_description := None;
     b_supplier := None; old_price := Some 100%float; b_price := Some 90%float;
     b_stock := None |}.

(** The sample records that [extract_data] writes when a source file is
    missing. *)
Definition sample_a1 : json :=
  JDict [("id", JInt 1); ("name", JStr "Laptop Alpha"); ("category", JStr "Laptops");
         ("price", JFloat 25000); ("stock", JInt 10)].
Definition sample_a2 : json :=
  JDict [("id", JInt 2); ("name", JStr "Smartphone Beta");
         ("category", JStr "Smartphones"); ("price", JFloat 12000); ("stock", JInt 25)].
Definition sample_a3 : json :=
  JDict [("id", JInt 3); ("name", JStr "Headphones Gamma"); ("category", JStr "Audio");
         ("price", JInt 0); ("stock", JInt 5)].
Definition sample_a4 : json :=
  JDict [("id", JInt 4); ("name", JStr "Tablet Delta"); ("category", JStr "Tablets");
         ("price", JFloat 8500); ("stock", JInt 0)].
Definition sample_data_a : list json := [sample_a1; sample_a2; sample_a3; sample_a4].

(** A second candidate under the identifier of [sample_a1]. *)
Definition sample_a1_again : json :=
  JDict [("id", JInt 1); ("name", JStr "Laptop Omega"); ("category", JStr "Tablets");
         ("price", JFloat 30000); ("stock", JInt 7)].

(** A candidate whose name has two characters, spelled in four bytes. *)
Definition two_letters_A : json :=
  JDict [("id", JInt 6); ("name", JStr "Яя"); ("category", JStr "Audio");
         ("price", JFloat 10); ("stock", JInt 1)].

(** [{"id": 5, "name": "Tablet Sigma", "category": "Tablets", "price": -0.5,
      "stock": 4}] *)
Definition negative_price_A : json :=
  JDict [("id", JInt 5); ("name", JStr "Tablet Sigma"); ("category", JStr "Tablets");
         ("price", JFloat (-0.5)); ("stock", JInt 4)].

(** [{"product_id": 1, "name": "", "category": "", "description": "",
      "supplier": "", "price": 0, "stock": 0}] *)
Definition blank_B : json :=
  JDict [("product_id", JInt 1); ("name", JStr ""); ("category", JStr "");
         ("description", JStr ""); ("supplier", JStr "");
         ("price", JFloat 0); ("stock", JInt 0)].

Definition blank : ProductSourceB :=
  {| product_id := 1; b_name := Some ""; b_category := Some "";
     b_description := Some ""; b_supplier := Some ""; old_price := None;
     b_price := Some 0%float; b_stock := Some 0 |}.

(** A new product, then a patch aimed at the identifier it received. *)
Definition watch_B : json :=
  JDict [("product_id", JInt 5); ("name", JStr "Smartwatch Epsilon");
         ("category", JStr "Wearables"); ("price", JFloat 7500); ("stock", JInt 30)].

Definition watch : ProductSourceB :=
  {| product_id := 5; b_name := Some "Smartwatch Epsilon";
     b_category := Some "Wearables"; b_description := None; b_supplier := None;
     old_price := None; b_price := Some 7500%float; b_stock := Some 30 |}.

Definition restock_B : json :=
  JDict [("product_id", JInt 2); ("stock", JInt 7)].

Definition restock : ProductSourceB :=
  {| product_id := 2; b_name := None; b_category := None; b_description := None;
     b_supplier := None; old_price := None; b_price := None; b_stock := Some 7 |}.

(** Raw records of the wrong shape or type, or lacking a field. *)
Definition not_a_record : json := JStr "oops".
Definition price_is_text : json :=
  JDict [("id", JInt 9); ("name", JStr "Camera"); ("category", JStr "Photo");
         ("price", JStr "cheap"); ("stock", JInt 1)].
Definition nameless_A : json :=
  JDict [("id", JInt 9); ("category", JStr "Photo"); ("price", JFloat 10);
         ("stock", JInt 1)].
Definition no_product_id : json := JDict [("name", JStr "Camera")].

(** A record that the pipeline can write and that its own model refuses. *)
Definition negative_price : ConsolidatedProduct :=
  {| id := 1; name := "Laptop Alpha"; category := "Ноутбуки"; price := (-5)%float;
     stock := -3; description := None; supplier := None;
     price_change_percentage := Some (-105)%float |}.

(** [{"product_id": 1, "price": -5.0, "stock": -3}] *)
Definition negative_B : json :=
  JDict [("product_id", JInt 1); ("price", JFloat (-5)); ("stock", JInt (-3))].

(** [{"product_id": 7, "name": "ab", "category": "Audio", "price": 50.0,
      "stock": 3}]: every core field is there, the name is too short. *)
Definition short_name_B : json :=
  JDict [("product_id", JInt 7); ("name", JStr "ab"); ("category", JStr "Audio");
         ("price", JFloat 50); ("stock", JInt 3)].

Definition speaker_B : json :=
  JDict [("product_id", JInt 8); ("name", JStr "Speaker"); ("category", JStr "Audio");
         ("price", JFloat 50); ("stock", JInt 3)].

Definition speaker (new_id : Z) : ConsolidatedProduct :=
  {| id := new_id; name := "Speaker"; category := "Аудіотехніка"; price := 50;
     stock := 3; description := None; supplier := None;
     price_change_percentage := None |}.

(** [{"id": 1, "price": 100, "stock": 5, "name": nm, "category": "Laptops"}] *)
Definition example_primary (nm : string) : json :=
  JDict [("id", JInt 1); ("price", JInt 100); ("stock", JInt 5);
         ("name", JStr nm); ("category", JStr "Laptops")].

(** [{"product_id": 1, "old_price": 100, "price": 90}] *)
Definition example_patch : json :=
  JDict [("product_id", JInt 1); ("old_price", JInt 100); ("price", JInt 90)].

Definition example_consolidated (nm : string) : ConsolidatedProduct :=
  {| id := 1; name := nm; category := "Ноутбуки"; price := 90; stock := 5;
     description := None; supplier := None;
     price_change_percentage := Some (-10)%float |}.

(** * The service around the transformation

    [extract_data], [load_data] with its failures, and [run_etl_process]. *)

(** The sample patches that [extract_data] writes when source B is missing. *)
Definition sample_b1 : json :=
  JDict [("product_id", JInt 1);
         ("description", JStr "High-performance laptop for professionals.");
         ("supplier", JStr "SupplierX"); ("old_price", JFloat 26000);
         ("price", JFloat 24500)].
Definition sample_b2 : json :=
  JDict [("product_id", JInt 5); ("name", JStr "Smartwatch Epsilon");
         ("category", JStr "Wearables");
         ("description", JStr "Latest generation smartwatch.");
         ("supplier", JStr "SupplierY"); ("price", JFloat 7500); ("stock", JInt 30)].
Definition sample_b3 : json :=
  JDict [("product_id", JInt 2); ("supplier", JStr "SupplierZ"); ("stock", JInt 30)].
Definition sample_data_b : list json := [sample_b1; sample_b2; sample_b3].

Definition SOURCE_A_PATH : string := "source_products_branch_A.json".
Definition SOURCE_B_PATH : string := "source_additional_info_branch_B.json".
Definition CONSOLIDATED_DATA_PATH : string := "consolidated_electronics_store.json".

(** The three files the service touches. *)
Record disk : Type := {
  source_A : file;
  source_B : file;
  consolidated : file
}.

Definition set_source_A (f : file) (d : disk) : disk :=
  {| source_A := f; source_B := source_B d; consolidated := consolidated d |}.
Definition set_source_B (f : file) (d : disk) : disk :=
  {| source_A := source_A d; source_B := f; consolidated := consolidated d |}.
Definition set_consolidated (f : file) (d : disk) : disk :=
  {| source_A := source_A d; source_B := source_B d; consolidated := f |}.

(** How [open(path, 'w')] followed by [json.dump] ends: the file holds the
    value; [open] raises and the file is as it was; or an error cuts the
    writing short and leaves a file whose text [json.load] refuses. *)
Inductive write : Type :=
| Written
| Refused
| Broken.

(** What leaves a function of the service: an exception of the
    transformation, or the [OSError] of a failed write. *)
Inductive io_exn : Type :=
| Uncaught (e : exn)
| OSError.

Inductive io_result (A : Type) : Type :=
| Done (a : A)
| Crash (e : io_exn).
Arguments Done {A} a.
Arguments Crash {A} e.

(** The lines the service logs, beside those of [transform_data]. *)
Inductive event : Type :=
| EtlStarted
| CreatedSample (path : string)
| ExtractedFrom (path : string)
| SourceNotFound (path : string)
| SourceNotJSON (path : string)
| NothingExtracted
| FromTransform (l : log_entry)
| TransformationCompleted (n : nat)
| LoadedTo (path : string)
| ErrorWriting (path : string)
| EtlFinished.

Definition IO (A : Type) : Type := disk -> disk * list event * io_result A.

Definition io_ret {A : Type} (a : A) : IO A := fun d => (d, [], Done a).

Definition io_bind {A B : Type} (m : IO A) (k : A -> IO B) : IO B :=
  fun d =>
    match m d with
    | (d', out, Done a) =>
        match k a d' with
        | (d'', out', r) => (d'', out ++ out', r)
        end
    | (d', out, Crash e) => (d', out, Crash e)
    end.

Definition io_log (l : list event) : IO unit := fun d => (d, l, Done tt).
Definition io_disk : IO disk := fun d => (d, [], Done d).

Declare Scope io_scope.
Delimit Scope io_scope with io.
Notation "x <- m ;; k" := (io_bind m (fun x => k))
  (at level 61, m at next level, right associativity) : io_scope.
Notation "m ;; k" := (io_bind m (fun _ => k))
  (at level 61, right associativity) : io_scope.

(** [if not os.path.exists(path): write the sample; logger.info(...)]: the
    write is outside any [try]. *)
Definition create_sample (w : write) (path : string) (get : disk -> file)
    (set : file -> disk -> disk) (sample : list json) : IO unit :=
  fun d =>
    match get d with
    | Absent =>
        match w with
        | Written => (set (Holds (JList sample)) d, [CreatedSample path], Done tt)
        | Refused => (d, [], Crash OSError)
        | Broken => (set Garbled d, [], Crash OSError)
        end
    | _ => (d, [], Done tt)
    end.

(** [try: data = json.load(open(path)) / except FileNotFoundError /
    except json.JSONDecodeError]: the data stays [[]] when reading fails. *)
Definition read_source (path : string) (f : file) : IO json :=
  match open_and_load f with
  | Ret data => (io_log [ExtractedFrom path];; io_ret data)%io
  | Raise FileNotFoundError => (io_log [SourceNotFound path];; io_ret (JList []))%io
  | Raise _ => (io_log [SourceNotJSON path];; io_ret (JList []))%io
  end.

Definition extract_data (wa wb : write) : IO (json * json) :=
  (create_sample wa SOURCE_A_PATH source_A set_source_A sample_data_a;;
   create_sample wb SOURCE_B_PATH source_B set_source_B sample_data_b;;
   d <- io_disk;;
   data_a <- read_source SOURCE_A_PATH (source_A d);;
   data_b <- read_source SOURCE_B_PATH (source_B d);;
   io_ret (data_a, data_b))%io.

(** [load_data]: the write is inside a [try] whose [except IOError] logs and
    goes on. *)
Definition load_data_to (w : write) (data : list ConsolidatedProduct) : IO unit :=
  fun d =>
    match w with
    | Written => (set_consolidated (load_data data) d,
                  [LoadedTo CONSOLIDATED_DATA_PATH], Done tt)
    | Refused => (d, [ErrorWriting CONSOLIDATED_DATA_PATH], Done tt)
    | Broken => (set_consolidated Garbled d,
                 [ErrorWriting CONSOLIDATED_DATA_PATH], Done tt)
    end.

(** [not data]: what Python takes for false among the values of JSON. *)
Definition falsy (v : json) : bool :=
  match v with
  | JNull => true
  | JBool b => negb b
  | JInt z => z =? 0
  | JFloat f => PrimFloat.eqb f 0%float
  | JStr s => match s with EmptyString => true | _ => false end
  | JList l => match l with [] => true | _ => false end
  | JDict d => match d with [] => true | _ => false end
  end.

Section Pipeline.
Context {P : Pydantic}.

(** [transform_data] on what [json.load] returned, which need not be a
    list: each [for] iterates its value when it comes to it, so the lines of
    the first loop are logged before the second can raise. *)
Definition transform_data_json (data_a data_b : json)
  : list log_entry * py (list ConsolidatedProduct) :=
  match py_iter data_a with
  | Raise e => ([], Raise e)
  | Ret items_a =>
      match clean_and_seed_run items_a with
      | (seed, log_a) =>
          match initial_max_id seed with
          | Raise e => (log_a, Raise e)
          | Ret m =>
              match py_iter data_b with
              | Raise e => (log_a, Raise e)
              | Ret items_b =>
                  match for_each items_b source_B_step
                          {| transformed_products := seed; current_max_id := m |} with
                  | (st, log_b) =>
                      (log_a ++ log_b, Ret (values (transformed_products st)))
                  end
              end
          end
      end
  end.

(** [POST /run-etl]; the answer is the count it reports. *)
Definition run_etl_process (wa wb wc : write) : IO nat :=
  (io_log [EtlStarted];;
   data <- extract_data wa wb;;
   (if falsy (fst data) && falsy (snd data) then io_log [NothingExtracted]
    else io_ret tt);;
   match transform_data_json (fst data) (snd data) with
   | (log, Raise e) =>
       fun d => (d, map FromTransform log, Crash (Uncaught e))
   | (log, Ret transformed_data) =>
       io_log (map FromTransform log);;
       io_log [TransformationCompleted (List.length transformed_data)];;
       load_data_to wc transformed_data;;
       io_log [EtlFinished];;
       io_ret (List.length transformed_data)
   end)%io.
End Pipeline.

(** ** Notions used to state the properties of the service *)

(** The constraints of [ProductBase] on a consolidated record. *)
Definition meets_ProductBase (c : ConsolidatedProduct) : bool :=
  ProductBase_ok (name c) (price c) (stock c).

(** The five names a category is rewritten to. *)
Definition standard_names : list string :=
  ["Ноутбуки"; "Смартфони"; "Аудіотехніка"; "Планшети"; "Носимі пристрої"].

(** A source file once [extract_data] has looked at it: created from the
    sample when it was missing. *)
Definition settle (sample : list json) (f : file) : file :=
  match f with
  | Absent => Holds (JList sample)
  | _ => f
  end.

(** What [extract_data] takes from a source file that exists. *)
Definition data_of (f : file) : json :=
  match f with
  | Holds data => data
  | _ => JList []
  end.

Definition settled (d : disk) : disk :=
  {| source_A := settle sample_data_a (source_A d);
     source_B := settle sample_data_b (source_B d);
     consolidated := consolidated d |}.

Definition is_missing_report (e : event) : bool :=
  match e with
  | SourceNotFound _ => true
  | _ => false
  end.

Section AfterExtract.
Context {P : Pydantic}.

(** [run_etl_process] after [extract_data] returned. *)
Definition after_extract (wc : write) (data : json * json) : IO nat :=
  ((if falsy (fst data) && falsy (snd data) then io_log [NothingExtracted]
    else io_ret tt);;
   match transform_data_json (fst data) (snd data) with
   | (log, Raise e) =>
       fun d => (d, map FromTransform log, Crash (Uncaught e))
   | (log, Ret transformed_data) =>
       io_log (map FromTransform log);;
       io_log [TransformationCompleted (List.length transformed_data)];;
       load_data_to wc transformed_data;;
       io_log [EtlFinished];;
       io_ret (List.length transformed_data)
   end)%io.

End AfterExtract.

(** Two results of [extract_data] that go on alike. *)
Definition alike (r1 r2 : disk * list event * io_result (json * json)) : Prop :=
  snd r1 = snd r2 /\ consolidated (fst (fst r1)) = consolidated (fst (fst r2)).

(** The disk before anything ran: no source, no consolidated file. *)
Definition fresh_install : disk :=
  {| source_A := Absent; source_B := Absent; consolidated := Absent |}.

(** A source file that holds the number 5. *)
Definition number_in_source_A : disk :=
  {| source_A := Holds (JInt 5); source_B := Holds (JList sample_data_b);
     consolidated := Holds (JList []) |}.

(** [{"product_id": 8, "name": "Speaker", "category": "Audio",
      "price": 50.0, "stock": 0}] *)
Definition sold_out_B : json :=
  JDict [("product_id", JInt 8); ("name", JStr "Speaker"); ("category", JStr "Audio");
         ("price", JFloat 50); ("stock", JInt 0)].

(** The candidate as source A takes it, if it does. *)
Definition accept {P : Pydantic} (raw : json) : option ProductSourceA :=
  match zero_price_or_stock raw with
  | Ret false =>
      match ProductSourceA_init raw with
      | Ret a => Some a
      | Raise _ => None
      end
  | _ => None
  end.

Fixpoint accepted_candidates {P : Pydantic} (data_a : list json)
  : list ProductSourceA :=
  match data_a with
  | [] => []
  | raw :: rest =>
      match accept raw with
      | Some a => a :: accepted_candidates rest
      | None => accepted_candidates rest
      end
  end.

(** * Properties *)

(** ** The dictionary *)

Lemma dict_get_set_same (k : Z) (v : ConsolidatedProduct) (d : products) :
  dict_get k (dict_set k v d) = Some v.
Proof.
  induction d as [| [k' v'] d IH]; simpl.
  - rewrite Z.eqb_refl. reflexivity.
  - destruct (k =? k') eqn:E; simpl; rewrite ?Z.eqb_refl, ?E; auto.
Qed.

Lemma dict_get_set_other (k k' : Z) (v : ConsolidatedProduct) (d : products) :
  k <> k' -> dict_get k' (dict_set k v d) = dict_get k' d.
Proof.
  intros Hne. induction d as [| [k0 v0] d IH]; simpl.
  - destruct (Z.eqb_spec k' k); [congruence | reflexivity].
  - destruct (Z.eqb_spec k k0) as [-> | Hk]; simpl.
    + destruct (Z.eqb_spec k' k0); [congruence | reflexivity].
    + rewrite IH. reflexivity.
Qed.

Lemma keys_set_present (k : Z) (v e : ConsolidatedProduct) (d : products) :
  dict_get k d = Some e -> keys (dict_set k v d) = keys d.
Proof.
  induction d as [| [k' v'] d IH]; simpl; [discriminate |].
  destruct (Z.eqb_spec k k') as [-> | Hk]; simpl; intros H.
  - reflexivity.
  - f_equal. apply IH, H.
Qed.

Lemma keys_set_absent (k : Z) (v : ConsolidatedProduct) (d : products) :
  dict_get k d = None -> keys (dict_set k v d) = keys d ++ [k].
Proof.
  induction d as [| [k' v'] d IH]; simpl; [reflexivity |].
  destruct (Z.eqb_spec k k') as [-> | Hk]; simpl; intros H.
  - discriminate.
  - f_equal. apply IH, H.
Qed.

Lemma dict_get_None_keys (k : Z) (d : products) :
  dict_get k d = None <-> ~ In k (keys d).
Proof.
  induction d as [| [k' v'] d IH]; simpl.
  - tauto.
  - destruct (Z.eqb_spec k k') as [-> | Hk].
    + split; [discriminate | tauto].
    + rewrite IH. intuition congruence.
Qed.

Lemma dict_get_In (k : Z) (v : ConsolidatedProduct) (d : products) :
  dict_get k d = Some v -> In (k, v) d.
Proof.
  induction d as [| [k' v'] d IH]; simpl; [discriminate |].
  destruct (Z.eqb_spec k k') as [-> | Hk]; intros H.
  - left. congruence.
  - right. auto.
Qed.

Lemma In_dict_set (k k' : Z) (v v' : ConsolidatedProduct) (d : products) :
  In (k', v') (dict_set k v d) -> (k', v') = (k, v) \/ In (k', v') d.
Proof.
  induction d as [| [k0 v0] d IH]; simpl.
  - intros [H | []]. left. congruence.
  - destruct (k =? k0); simpl; intros [H | H]; auto.
    destruct (IH H); auto.
Qed.

Lemma NoDup_keys_set (k : Z) (v : ConsolidatedProduct) (d : products) :
  NoDup (keys d) -> NoDup (keys (dict_set k v d)).
Proof.
  intros Hnd. destruct (dict_get k d) as [e |] eqn:E.
  - rewrite (keys_set_present k v d E). exact Hnd.
  - rewrite (keys_set_absent k v d E).
    apply dict_get_None_keys in E.
    apply NoDup_rev in Hnd. rewrite <- (rev_involutive (keys d ++ [k])).
    apply NoDup_rev. rewrite rev_app_distr. simpl. constructor; [| exact Hnd].
    rewrite <- in_rev. exact E.
Qed.

(** ** Loops *)

Lemma for_each_app {S X : Type} (step : X -> S -> S * list log_entry)
    (xs ys : list X) (s : S) :
  for_each (xs ++ ys) step s =
  match for_each xs step s with
  | (s', out) =>
      match for_each ys step s' with
      | (s'', out') => (s'', out ++ out')
      end
  end.
Proof.
  revert s. induction xs as [| x xs IH]; intros s; simpl.
  - destruct (for_each ys step s). reflexivity.
  - destruct (step x s) as [s1 o1]. rewrite IH.
    destruct (for_each xs step s1) as [s2 o2].
    destruct (for_each ys step s2) as [s3 o3].
    rewrite app_assoc. reflexivity.
Qed.

(** A step that leaves the state it meets as it is can be taken out of the
    loop, as far as the state goes. *)
Lemma for_each_skip_at {S X : Type} (step : X -> S -> S * list log_entry)
    (xs ys : list X) (x : X) (s : S) :
  fst (step x (fst (for_each xs step s))) = fst (for_each xs step s) ->
  fst (for_each (xs ++ x :: ys) step s) = fst (for_each (xs ++ ys) step s).
Proof.
  intros Hx. rewrite !for_each_app. simpl.
  destruct (for_each xs step s) as [s1 o1]. simpl in Hx.
  destruct (step x s1) as [s2 o2]. simpl in Hx. subst s2.
  destruct (for_each ys step s1) as [s3 o3]. reflexivity.
Qed.

Lemma for_each_skip {S X : Type} (step : X -> S -> S * list log_entry)
    (xs ys : list X) (x : X) (s : S) :
  (forall s', fst (step x s') = s') ->
  fst (for_each (xs ++ x :: ys) step s) = fst (for_each (xs ++ ys) step s).
Proof.
  intros Hx. apply for_each_skip_at, Hx.
Qed.

Lemma for_each_invariant {S X : Type} (I : S -> Prop)
    (step : X -> S -> S * list log_entry) (xs : list X) :
  (forall x s, In x xs -> I s -> I (fst (step x s))) ->
  forall s, I s -> I (fst (for_each xs step s)).
Proof.
  induction xs as [| x xs IH]; intros Hstep s Hs; simpl; [exact Hs |].
  pose proof (Hstep x s (or_introl eq_refl) Hs) as H1.
  destruct (step x s) as [s1 o1]. simpl in H1.
  assert (H2 : I (fst (for_each xs step s1))).
  { apply IH; [| exact H1]. intros y t Hy. apply Hstep. right. exact Hy. }
  destruct (for_each xs step s1) as [s2 o2]. exact H2.
Qed.

Lemma for_each_app_fst {S X : Type} (step : X -> S -> S * list log_entry)
    (xs ys : list X) (s : S) :
  fst (for_each (xs ++ ys) step s)
  = fst (for_each ys step (fst (for_each xs step s))).
Proof.
  rewrite for_each_app. destruct (for_each xs step s) as [s1 o1]. simpl.
  destruct (for_each ys step s1). reflexivity.
Qed.

Lemma initial_max_id_total (tp : products) : exists m, initial_max_id tp = Ret m.
Proof.
  destruct tp as [| [k v] tp]; simpl; eauto.
Qed.

(** ** One step of the loop over source B, case by case *)

Section Steps.
Context {P : Pydantic}.

Lemma source_B_step_invalid (raw : json) (e : exn) (st : merge_state) :
  ProductSourceB_init raw = Raise e ->
  source_B_step raw st = (st, [Warning (SkippingInvalidB raw e)]).
Proof.
  intros H. unfold source_B_step, try_except, source_B_body, mbind, lift.
  rewrite H. reflexivity.
Qed.

Lemma source_B_step_update (raw : json) (b : ProductSourceB)
    (ex : ConsolidatedProduct) (st : merge_state) :
  ProductSourceB_init raw = Ret b ->
  dict_get (product_id b) (transformed_products st) = Some ex ->
  source_B_step raw st =
  (set_products (dict_set (product_id b) (update_existing ex b)) st,
   [Info (UpdatingExisting (product_id b))]).
Proof.
  intros H Hg. unfold source_B_step, try_except, source_B_body, mbind, lift, get.
  rewrite H, Hg. reflexivity.
Qed.

Lemma source_B_step_new (raw : json) (b : ProductSourceB) (st : merge_state) :
  ProductSourceB_init raw = Ret b ->
  dict_get (product_id b) (transformed_products st) = None ->
  source_B_step raw st =
  try_except (add_new raw b) (fun e => Warning (SkippingInvalidB raw e)) st.
Proof.
  intros H Hg. unfold source_B_step, try_except, source_B_body, mbind, lift, get.
  rewrite H, Hg. simpl. destruct (add_new raw b st) as [[s' out] r].
  reflexivity.
Qed.

Lemma add_new_missing (raw : json) (b : ProductSourceB) (st : merge_state) :
  has_core_fields b = false ->
  add_new raw b st =
  (st, [Info (AddingNew (product_id b)); Warning (SkippingMissingCore raw)], Ret tt).
Proof.
  intros H. unfold add_new, mbind, logger. rewrite H. reflexivity.
Qed.

Lemma has_core_fields_inv (b : ProductSourceB) :
  has_core_fields b = true ->
  exists n c p s,
    b_name b = Some n /\ b_category b = Some c /\
    b_price b = Some p /\ b_stock b = Some s.
Proof.
  unfold has_core_fields, truthy, is_not_None.
  destruct (b_name b) as [[| ? ?] |]; try discriminate.
  destruct (b_category b) as [[| ? ?] |]; try discriminate.
  destruct (b_price b); try discriminate.
  destruct (b_stock b); try discriminate.
  intros _. eauto 10.
Qed.

(** What the insertion branch does once the core fields are there: the
    counter moves first, the record follows only if the model accepts it. *)
Lemma add_new_core (raw : json) (b : ProductSourceB) (st : merge_state)
    (n c : string) (p : float) (s : Z) :
  has_core_fields b = true ->
  b_name b = Some n -> b_category b = Some c ->
  b_price b = Some p -> b_stock b = Some s ->
  add_new raw b st =
  match ConsolidatedProduct_init (current_max_id st + 1) n (standardize c) p s
          (b_description b) (b_supplier b) with
  | Ret product =>
      (set_products (dict_set (current_max_id st + 1) product) (next_id st),
       [Info (AddingNew (product_id b))], Ret tt)
  | Raise e => (next_id st, [Info (AddingNew (product_id b))], Raise e)
  end.
Proof.
  intros H Hn Hc Hp Hs. unfold add_new, mbind, logger, modify, get, lift.
  rewrite H, Hn, Hc, Hp, Hs. simpl.
  destruct (ConsolidatedProduct_init _ _ _ _ _ _ _); reflexivity.
Qed.
Lemma source_B_step_insert (raw : json) (b : ProductSourceB) (st : merge_state)
    (n c : string) (p : float) (s : Z) :
  ProductSourceB_init raw = Ret b ->
  dict_get (product_id b) (transformed_products st) = None ->
  has_core_fields b = true ->
  b_name b = Some n -> b_category b = Some c ->
  b_price b = Some p -> b_stock b = Some s ->
  ProductBase_ok n p s = true ->
  source_B_step raw st =
  (set_products
     (dict_set (current_max_id st + 1)
        {| id := current_max_id st + 1; name := n; category := standardize c;
           price := p; stock := s; description := b_description b;
           supplier := b_supplier b; price_change_percentage := None |})
     (next_id st),
   [Info (AddingNew (product_id b))]).
Proof.
  intros Hb Hg Hcore Hn Hc Hp Hs Hok. rewrite (source_B_step_new raw st Hb Hg).
  unfold try_except. rewrite (add_new_core raw b st Hcore Hn Hc Hp Hs).
  unfold ConsolidatedProduct_init. rewrite Hok. reflexivity.
Qed.

(** A new product that the model refuses: the counter has moved. *)
Lemma source_B_step_refused (raw : json) (b : ProductSourceB) (st : merge_state)
    (n c : string) (p : float) (s : Z) :
  ProductSourceB_init raw = Ret b ->
  dict_get (product_id b) (transformed_products st) = None ->
  has_core_fields b = true ->
  b_name b = Some n -> b_category b = Some c ->
  b_price b = Some p -> b_stock b = Some s ->
  ProductBase_ok n p s = false ->
  source_B_step raw st =
  (next_id st,
   [Info (AddingNew (product_id b)); Warning (SkippingInvalidB raw ValidationError)]).
Proof.
  intros Hb Hg Hcore Hn Hc Hp Hs Hok. rewrite (source_B_step_new raw st Hb Hg).
  unfold try_except. rewrite (add_new_core raw b st Hcore Hn Hc Hp Hs).
  unfold ConsolidatedProduct_init. rewrite Hok. reflexivity.
Qed.

(** What one step over source B can do to the state. *)
Lemma source_B_step_cases (raw : json) (st : merge_state) :
  fst (source_B_step raw st) = st
  \/ (exists b ex,
         dict_get (product_id b) (transformed_products st) = Some ex
         /\ fst (source_B_step raw st)
            = set_products (dict_set (product_id b) (update_existing ex b)) st)
  \/ fst (source_B_step raw st) = next_id st
  \/ (exists product,
         id product = current_max_id st + 1
         /\ ProductBase_ok (name product) (price product) (stock product) = true
         /\ fst (source_B_step raw st)
            = set_products (dict_set (current_max_id st + 1) product) (next_id st)).
Proof.
  destruct (ProductSourceB_init raw) as [b | e] eqn:Hb.
  2: { left. rewrite (source_B_step_invalid raw st Hb). reflexivity. }
  destruct (dict_get (product_id b) (transformed_products st)) as [ex |] eqn:Hg.
  { right. left. exists b, ex. split; [exact Hg |].
    rewrite (source_B_step_update raw st Hb Hg). reflexivity. }
  rewrite (source_B_step_new raw st Hb Hg). unfold try_except.
  destruct (has_core_fields b) eqn:Hc.
  2: { left. rewrite (add_new_missing raw b st Hc). reflexivity. }
  destruct (has_core_fields_inv b Hc) as [n [c [p [s [Hn [Hcat [Hp Hs]]]]]]].
  rewrite (add_new_core raw b st Hc Hn Hcat Hp Hs).
  unfold ConsolidatedProduct_init.
  destruct (ProductBase_ok n p s) eqn:Hok.
  - right. right. right. eexists. split; [| split]; [| | reflexivity]; simpl; auto.
  - right. right. left. reflexivity.
Qed.

Lemma dict_set_keeps (k k' : Z) (v : ConsolidatedProduct) (d : products) :
  dict_get k d <> None -> dict_get k (dict_set k' v d) <> None.
Proof.
  intros H. destruct (Z.eq_dec k' k) as [-> | Hne].
  - rewrite dict_get_set_same. discriminate.
  - rewrite dict_get_set_other by exact Hne. exact H.
Qed.

(** No step takes a key away. *)
Lemma source_B_step_keeps (raw : json) (st : merge_state) (k : Z) :
  dict_get k (transformed_products st) <> None ->
  dict_get k (transformed_products (fst (source_B_step raw st))) <> None.
Proof.
  intros H.
  destruct (source_B_step_cases raw st)
    as [-> | [[b [ex [Hg ->]]] | [-> | [product [_ [_ ->]]]]]]; simpl;
    auto using dict_set_keeps.
Qed.
End Steps.

(** ** Merging nothing *)

(** C8: merging an empty patch sequence into a seeded mapping returns the
    mapping as it was: [merge_patches seed [] = seed]. *)
Theorem merge_patches_nil (P : Pydantic) (seed : products) :
  merge_patches seed [] = Ret seed.
Proof.
  unfold merge_patches, merge_patches_run.
  destruct (initial_max_id_total seed) as [m Hm]. rewrite Hm. reflexivity.
Qed.

(** ** The update branch *)

Section Update.
Context {P : Pydantic}.
Variables (raw : json) (b : ProductSourceB) (ex : ConsolidatedProduct)
          (st : merge_state).
Hypothesis Hvalid : ProductSourceB_init raw = Ret b.
Hypothesis Hfound : dict_get (product_id b) (transformed_products st) = Some ex.

Lemma updated_record :
  dict_get (product_id b) (transformed_products (fst (source_B_step raw st)))
  = Some (update_existing ex b).
Proof.
  rewrite (source_B_step_update raw st Hvalid Hfound). simpl.
  apply dict_get_set_same.
Qed.

Lemma update_keeps_keys :
  keys (transformed_products (fst (source_B_step raw st)))
  = keys (transformed_products st).
Proof.
  rewrite (source_B_step_update raw st Hvalid Hfound). simpl.
  eapply keys_set_present, Hfound.
Qed.

Lemma update_keeps_counter :
  current_max_id (fst (source_B_step raw st)) = current_max_id st.
Proof.
  rewrite (source_B_step_update raw st Hvalid Hfound). reflexivity.
Qed.
End Update.

(** C2: for a patch whose identifier matches an existing record, the stored
    price-change percentage is [round((new - ref) / ref * 100, 2)], with
    [new] the patch's price if supplied, else the existing price, and [ref]
    the patch's old price if supplied, else the existing price; it is stored
    only when [ref] is not zero and [new] differs from [ref] (reference 100
    and new 90 give -10.0; a zero reference stores nothing); the existing
    price is overwritten by the patch's only after that. *)
Theorem price_change_on_update (P : Pydantic) (raw : json) (b : ProductSourceB)
    (ex : ConsolidatedProduct) (st : merge_state) :
  ProductSourceB_init raw = Ret b ->
  dict_get (product_id b) (transformed_products st) = Some ex ->
  let new_price := match b_price b with Some p => p | None => price ex end in
  let reference_price := match old_price b with Some p => p | None => price ex end in
  let percentage :=
    py_round2 (((new_price - reference_price) / reference_price) * 100)%float in
  exists ex',
    dict_get (product_id b) (transformed_products (fst (source_B_step raw st)))
    = Some ex'
    /\ price_change_percentage ex' =
       (if negb (reference_price =? 0)%float
           && negb (new_price =? reference_price)%float
        then Some percentage
        else price_change_percentage ex)
    /\ ((reference_price =? 0)%float = true ->
        price_change_percentage ex' = price_change_percentage ex)
    /\ (reference_price = 100%float -> new_price = 90%float ->
        price_change_percentage ex' = Some (-10)%float)
    /\ price ex' = new_price
    /\ (b_price b = None -> price ex' = price ex).
Proof.
  intros Hvalid Hfound new_price reference_price percentage.
  exists (update_existing ex b). split; [apply updated_record; assumption |].
  assert (Hpct : price_change_percentage (update_existing ex b) =
                 (if negb (reference_price =? 0)%float
                     && negb (new_price =? reference_price)%float
                  then Some percentage
                  else price_change_percentage ex)) by reflexivity.
  split; [exact Hpct |]. split; [| split; [| split]].
  - intros Hz. rewrite Hpct, Hz. reflexivity.
  - intros Href Hnew. rewrite Hpct. unfold percentage. rewrite Href, Hnew.
    vm_compute. reflexivity.
  - reflexivity.
  - intros Hnone. unfold update_existing. simpl. rewrite Hnone. reflexivity.
Qed.

Lemma cheaper_B_valid (P : Pydantic) : ProductSourceB_init cheaper_B = Ret cheaper.
Proof.
  unfold ProductSourceB_init, cheaper_B, required, optional. cbn.
  rewrite int_field_int. cbn. rewrite !float_field_float. reflexivity.
Qed.

Lemma price_change_on_update_witness :
  ProductSourceB_init (P := strict) cheaper_B = Ret cheaper
  /\ dict_get (product_id cheaper) (transformed_products seeded) = Some laptop
  /\ exists ex',
       dict_get 1 (transformed_products
                     (fst (source_B_step (P := strict) cheaper_B seeded))) = Some ex'
       /\ price_change_percentage ex' = Some (-10)%float
       /\ price ex' = 90%float.
Proof.
  split; [reflexivity |]. split; [reflexivity |].
  destruct (@price_change_on_update strict cheaper_B cheaper laptop seeded
              eq_refl eq_refl) as [ex' [Hget [_ [_ [Hten [Hprice _]]]]]].
  exists ex'. split; [exact Hget |]. split.
  - apply Hten; reflexivity.
  - exact Hprice.
Defined.

(** ** Empty strings in a patch *)

Lemma if_truthy_blank {A : Type} (o : option string) (f : string -> A) (keep : A) :
  if_truthy (blank_as_absent o) f keep = if_truthy o f keep.
Proof.
  destruct o as [[| c s] |]; reflexivity.
Qed.

Lemma update_existing_without_blanks (ex : ConsolidatedProduct) (b : ProductSourceB) :
  update_existing ex (without_blanks b) = update_existing ex b.
Proof.
  unfold update_existing, without_blanks. simpl.
  rewrite !if_truthy_blank. reflexivity.
Qed.

(** C10: for a patch updating an existing record, an empty string given for
    name, category, description or supplier is treated as if the field were
    absent, the existing value staying as it is; a stock or price that is
    given, 0 included, is applied. *)
Theorem empty_string_is_absent (P : Pydantic) (raw : json) (b : ProductSourceB)
    (ex : ConsolidatedProduct) (st : merge_state) :
  ProductSourceB_init raw = Ret b ->
  dict_get (product_id b) (transformed_products st) = Some ex ->
  exists ex',
    dict_get (product_id b) (transformed_products (fst (source_B_step raw st)))
    = Some ex'
    /\ ex' = update_existing ex (without_blanks b)
    /\ (b_name b = Some "" -> name ex' = name ex)
    /\ (b_category b = Some "" -> category ex' = category ex)
    /\ (b_description b = Some "" -> description ex' = description ex)
    /\ (b_supplier b = Some "" -> supplier ex' = supplier ex)
    /\ (forall s, b_stock b = Some s -> stock ex' = s)
    /\ (forall p, b_price b = Some p -> price ex' = p).
Proof.
  intros Hvalid Hfound. exists (update_existing ex b).
  split; [apply updated_record; assumption |].
  split; [symmetry; apply update_existing_without_blanks |].
  unfold update_existing; simpl.
  repeat split; intros; match goal with H : _ = Some _ |- _ => rewrite H end;
    reflexivity.
Qed.

Lemma blank_B_valid (P : Pydantic) : ProductSourceB_init blank_B = Ret blank.
Proof.
  unfold ProductSourceB_init, blank_B, required, optional. cbn.
  rewrite !int_field_int. cbn. rewrite !str_field_str. cbn.
  rewrite !float_field_float. reflexivity.
Qed.

Lemma empty_string_is_absent_witness :
  ProductSourceB_init (P := strict) blank_B = Ret blank
  /\ dict_get (product_id blank) (transformed_products seeded) = Some laptop
  /\ exists ex',
       dict_get 1 (transformed_products
                     (fst (source_B_step (P := strict) blank_B seeded))) = Some ex'
       /\ name ex' = "Laptop Alpha" /\ category ex' = "Ноутбуки"
       /\ description ex' = None /\ supplier ex' = None
       /\ stock ex' = 0 /\ price ex' = 0%float.
Proof.
  split; [reflexivity |]. split; [reflexivity |].
  destruct (@empty_string_is_absent strict blank_B blank laptop seeded
              eq_refl eq_refl)
    as [ex' [Hget [_ [Hn [Hc [Hd [Hs [Hstock Hprice]]]]]]]].
  exists ex'. split; [exact Hget |].
  rewrite (Hn eq_refl), (Hc eq_refl), (Hd eq_refl), (Hs eq_refl).
  rewrite (Hstock 0 eq_refl), (Hprice 0%float eq_refl).
  repeat split.
Defined.

(** ** A patch aimed at an identifier assigned earlier in the same pass *)

(** C9: within one merge pass, a later patch whose [product_id] equals the
    fresh identifier given to an earlier inserted patch record updates that
    record in place; it is not inserted under another fresh identifier. *)
Theorem patch_of_fresh_id_updates (P : Pydantic) (raw1 raw2 : json)
    (mid : list json) (b1 b2 : ProductSourceB) (st : merge_state)
    (n c : string) (p : float) (s : Z) :
  ProductSourceB_init raw1 = Ret b1 ->
  dict_get (product_id b1) (transformed_products st) = None ->
  b_name b1 = Some n -> b_category b1 = Some c ->
  b_price b1 = Some p -> b_stock b1 = Some s ->
  has_core_fields b1 = true ->
  ProductBase_ok n p s = true ->
  ProductSourceB_init raw2 = Ret b2 ->
  product_id b2 = current_max_id st + 1 ->
  let fresh := current_max_id st + 1 in
  let inserted :=
    {| id := fresh; name := n; category := standardize c; price := p; stock := s;
       description := b_description b1; supplier := b_supplier b1;
       price_change_percentage := None |} in
  let st1 := fst (source_B_step raw1 st) in
  let st_mid := fst (for_each mid source_B_step st1) in
  let st2 := fst (source_B_step raw2 st_mid) in
  transformed_products st1 = dict_set fresh inserted (transformed_products st)
  /\ current_max_id st1 = fresh
  /\ exists ex,
       dict_get fresh (transformed_products st_mid) = Some ex
       /\ (mid = [] -> ex = inserted)
       /\ dict_get fresh (transformed_products st2) = Some (update_existing ex b2)
       /\ keys (transformed_products st2) = keys (transformed_products st_mid)
       /\ current_max_id st2 = current_max_id st_mid
       /\ snd (source_B_step raw2 st_mid) = [Info (UpdatingExisting fresh)].
Proof.
  intros H1 Hnone Hn Hc Hp Hs Hcore Hok H2 Hid fresh inserted st1 st_mid st2.
  subst fresh.
  assert (Hst1 : st1 = set_products (dict_set (current_max_id st + 1) inserted)
                                     (next_id st)).
  { unfold st1. rewrite (source_B_step_new raw1 st H1 Hnone).
    unfold try_except. rewrite (add_new_core raw1 b1 st Hcore Hn Hc Hp Hs).
    unfold ConsolidatedProduct_init. rewrite Hok. reflexivity. }
  assert (Hget1 : dict_get (current_max_id st + 1) (transformed_products st1)
                  = Some inserted).
  { rewrite Hst1. simpl. apply dict_get_set_same. }
  split; [rewrite Hst1; reflexivity |].
  split; [rewrite Hst1; reflexivity |].
  assert (Hmid : dict_get (current_max_id st + 1) (transformed_products st_mid)
                 <> None).
  { unfold st_mid.
    apply (for_each_invariant
             (fun t => dict_get (current_max_id st + 1) (transformed_products t)
                       <> None)).
    - intros raw t _ Ht. apply source_B_step_keeps, Ht.
    - rewrite Hget1. discriminate. }
  destruct (dict_get (current_max_id st + 1) (transformed_products st_mid))
    as [ex |] eqn:Hex; [| congruence].
  exists ex. split; [reflexivity |].
  split.
  { intros ->. unfold st_mid in Hex. simpl in Hex. congruence. }
  assert (Hget : dict_get (product_id b2) (transformed_products st_mid) = Some ex)
    by (rewrite Hid; exact Hex).
  unfold st2. rewrite (source_B_step_update raw2 st_mid H2 Hget).
  unfold fst, snd, set_products, transformed_products at 1 3, current_max_id at 1.
  rewrite Hid in *.
  split; [apply dict_get_set_same |].
  split; [eapply keys_set_present; exact Hget |].
  split; reflexivity.
Qed.

Lemma patch_of_fresh_id_updates_witness :
  ProductSourceB_init (P := strict) watch_B = Ret watch
  /\ dict_get (product_id watch) (transformed_products seeded) = None
  /\ ProductSourceB_init (P := strict) restock_B = Ret restock
  /\ product_id restock = current_max_id seeded + 1
  /\ dict_get 2 (transformed_products
                   (fst (source_B_step (P := strict) restock_B
                           (fst (source_B_step (P := strict) watch_B seeded)))))
     = Some {| id := 2; name := "Smartwatch Epsilon"; category := "Носимі пристрої";
               price := 7500; stock := 7; description := None; supplier := None;
               price_change_percentage := None |}
  /\ current_max_id
       (fst (source_B_step (P := strict) restock_B
               (fst (source_B_step (P := strict) watch_B seeded)))) = 2.
Proof.
  destruct (@patch_of_fresh_id_updates strict watch_B restock_B [] watch restock
              seeded "Smartwatch Epsilon" "Wearables" 7500%float 30
              eq_refl eq_refl eq_refl eq_refl eq_refl eq_refl eq_refl eq_refl
              eq_refl eq_refl) as [_ [_ [ex [_ [Hex [Hget [_ [Hcount _]]]]]]]].
  do 4 (split; [reflexivity |]).
  rewrite (Hex eq_refl) in Hget.
  split; [exact Hget | exact Hcount].
Defined.

(** ** One step of the loop over source A, case by case *)

Lemma bind_Ret_inv {A B : Type} (m : py A) (k : A -> py B) (b : B) :
  bind m k = Ret b -> exists a, m = Ret a /\ k a = Ret b.
Proof.
  destruct m as [a | e]; simpl; [eauto | discriminate].
Qed.

Lemma bind_Raise_inv {A B : Type} (m : py A) (k : A -> py B) (e : exn) :
  bind m k = Raise e -> m = Raise e \/ exists a, m = Ret a /\ k a = Raise e.
Proof.
  destruct m as [a | e']; simpl; [eauto | intros H; left; congruence].
Qed.

Section StepsA.
Context {P : Pydantic}.

Lemma ProductSourceA_init_ok (raw : json) (a : ProductSourceA) :
  ProductSourceA_init raw = Ret a ->
  ProductBase_ok (a_name a) (a_price a) (a_stock a) = true.
Proof.
  unfold ProductSourceA_init. intros H.
  repeat (apply bind_Ret_inv in H; destruct H as [? [_ H]]).
  destruct (ProductBase_ok _ _ _) eqn:E; [| discriminate].
  injection H as <-. exact E.
Qed.

Lemma zero_price_or_stock_dict (raw : json) (r : bool) :
  zero_price_or_stock raw = Ret r -> exists d, raw = JDict d.
Proof.
  destruct raw; try discriminate. eauto.
Qed.

Lemma source_A_step_skip (raw : json) (tp : products) :
  zero_price_or_stock raw = Ret true ->
  exists i, py_get raw "id" JNull = Ret i
            /\ source_A_step raw tp = (tp, [Info (SkippingZeroPriceStock i)]).
Proof.
  intros H. destruct (zero_price_or_stock_dict raw H) as [d ->].
  unfold source_A_step, try_except, source_A_body, mbind, lift, logger.
  rewrite H. simpl. destruct (assoc "id" d) as [i |]; eauto.
Qed.

Lemma source_A_step_valid (raw : json) (a : ProductSourceA) (tp : products) :
  zero_price_or_stock raw = Ret false ->
  ProductSourceA_init raw = Ret a ->
  source_A_step raw tp = (dict_set (a_id a) (consolidated_of a) tp, []).
Proof.
  intros Hz Ha.
  unfold source_A_step, try_except, source_A_body, mbind, lift, modify.
  rewrite Hz, Ha. unfold ConsolidatedProduct_init.
  rewrite (ProductSourceA_init_ok raw Ha). reflexivity.
Qed.

(** Whatever the body raises, the mapping is as it was before the record,
    and the handler's warning is the last line logged. *)
Lemma source_A_body_raise (raw : json) (tp tp' : products)
    (out : list log_entry) (e : exn) :
  source_A_body raw tp = (tp', out, Raise e) ->
  tp' = tp
  /\ source_A_step raw tp = (tp, out ++ [Warning (SkippingInvalidA raw e)]).
Proof.
  intros H. unfold source_A_step, try_except. rewrite H.
  enough (tp' = tp) as -> by auto.
  revert H. unfold source_A_body, mbind, lift, logger, modify.
  destruct (zero_price_or_stock raw) as [[|] | e0].
  - destruct (py_get raw "id" JNull); intros H; congruence.
  - destruct (ProductSourceA_init raw) as [a | e1]; [| congruence].
    destruct (ConsolidatedProduct_init _ _ _ _ _ _ _); congruence.
  - congruence.
Qed.

Lemma source_A_step_guard_raise (raw : json) (tp : products) (e : exn) :
  zero_price_or_stock raw = Raise e ->
  source_A_step raw tp = (tp, [Warning (SkippingInvalidA raw e)]).
Proof.
  intros H. unfold source_A_step, try_except, source_A_body, mbind, lift.
  rewrite H. reflexivity.
Qed.

Lemma source_A_step_invalid (raw : json) (tp : products) (e : exn) :
  zero_price_or_stock raw = Ret false ->
  ProductSourceA_init raw = Raise e ->
  source_A_step raw tp = (tp, [Warning (SkippingInvalidA raw e)]).
Proof.
  intros Hz H. unfold source_A_step, try_except, source_A_body, mbind, lift.
  rewrite Hz, H. reflexivity.
Qed.

(** A step either leaves the mapping alone or stores the record of an
    accepted candidate under its identifier. *)
Lemma source_A_step_cases (raw : json) (tp : products) :
  fst (source_A_step raw tp) = tp
  \/ exists a, zero_price_or_stock raw = Ret false
               /\ ProductSourceA_init raw = Ret a
               /\ fst (source_A_step raw tp)
                  = dict_set (a_id a) (consolidated_of a) tp.
Proof.
  destruct (zero_price_or_stock raw) as [[|] | e] eqn:Hz.
  - destruct (source_A_step_skip raw tp Hz) as [i [_ ->]]. auto.
  - destruct (ProductSourceA_init raw) as [a | e] eqn:Ha.
    + right. exists a. rewrite (source_A_step_valid raw tp Hz Ha). auto.
    + rewrite (source_A_step_invalid raw tp Hz Ha). auto.
  - rewrite (source_A_step_guard_raise raw tp Hz). auto.
Qed.
End StepsA.

(** ** Rounding, lengths and category names *)

(** [round(x, 2)] on ties: the even neighbour is taken. *)
Lemma py_round2_ties :
  py_round2 0.125 = (12 / 100)%float
  /\ py_round2 0.375 = (38 / 100)%float
  /\ py_round2 (-0.125) = (- (12 / 100))%float
  /\ py_round2 2.5 = 2.5%float.
Proof. repeat split. Qed.

(** A length counts characters: the two Cyrillic letters are four bytes, and
    a name made of them is too short for [ProductBase]. *)
Lemma py_len_counts_characters :
  py_len "Яя" = 2%nat
  /\ String.length "Яя" = 4%nat
  /\ ProductBase_ok "Яя" 1 1 = false
  /\ ProductBase_ok "Яяя" 1 1 = true
  /\ py_len "abc" = String.length "abc"
  /\ py_len "пр€😀" = 4%nat
  /\ characters "aЯ€" = ["a"; "Я"; "€"].
Proof. repeat split. Qed.

(** The Kelvin sign is lowered to [k], as [str.lower()] does. *)
Lemma lower_Kelvin_sign :
  lower "NOTEBOOKS" = "notebooks" /\ lower "K" = "k".
Proof. split; reflexivity. Qed.

Lemma standardize_unmatched (c : string) :
  str_in (lower c) synonyms = false -> standardize c = c.
Proof.
  unfold standardize, synonyms, str_in. simpl. intros H.
  repeat (apply orb_false_elim in H; destruct H as [? H]).
  repeat match goal with E : (_ =? _)%string = false |- _ => rewrite E; clear E end.
  reflexivity.
Qed.

Lemma standardize_case_insensitive (c c' : string) :
  lower c = lower c' ->
  str_in (lower c) synonyms = true ->
  standardize c = standardize c'.
Proof.
  unfold standardize, synonyms, str_in. simpl. intros <- H.
  repeat match goal with
         | |- context [(?x =? ?y)%string] =>
             destruct (x =? y)%string eqn:?; simpl in *; try reflexivity
         end.
  discriminate.
Qed.

(** ** The seeded mapping *)

Section Seed.
Context {P : Pydantic}.

Lemma clean_and_seed_comes_from (data_a : list json) :
  comes_from data_a (clean_and_seed data_a).
Proof.
  unfold clean_and_seed, clean_and_seed_run.
  apply (for_each_invariant (comes_from data_a)).
  - intros raw tp Hin Htp.
    destruct (source_A_step_cases raw tp) as [-> | [a [Hz [Ha ->]]]]; [exact Htp |].
    intros k r Hkr. apply In_dict_set in Hkr. destruct Hkr as [Heq | Hold].
    + injection Heq as -> ->. exists raw, a. unfold accepted. auto.
    + apply Htp, Hold.
  - intros k r [].
Qed.

Lemma clean_and_seed_NoDup (data_a : list json) :
  NoDup (keys (clean_and_seed data_a)).
Proof.
  unfold clean_and_seed, clean_and_seed_run.
  apply (for_each_invariant (fun tp => NoDup (keys tp))).
  - intros raw tp _ Htp.
    destruct (source_A_step_cases raw tp) as [-> | [a [_ [_ ->]]]]; [exact Htp |].
    apply NoDup_keys_set, Htp.
  - constructor.
Qed.

(** The last accepted candidate with an identifier is the one stored. *)
Lemma clean_and_seed_last (l1 l2 : list json) (raw : json) (a : ProductSourceA) :
  accepted raw a ->
  (forall raw' a', In raw' l2 -> accepted raw' a' -> a_id a' <> a_id a) ->
  dict_get (a_id a) (clean_and_seed (l1 ++ raw :: l2)) = Some (consolidated_of a).
Proof.
  intros [Hz Ha] Hlast. unfold clean_and_seed, clean_and_seed_run.
  replace (l1 ++ raw :: l2) with ((l1 ++ [raw]) ++ l2)
    by (rewrite <- app_assoc; reflexivity).
  rewrite for_each_app_fst.
  apply (for_each_invariant
           (fun tp => dict_get (a_id a) tp = Some (consolidated_of a))).
  - intros raw' tp Hin Htp.
    destruct (source_A_step_cases raw' tp) as [-> | [a' [Hz' [Ha' ->]]]];
      [exact Htp |].
    rewrite dict_get_set_other; [exact Htp |].
    apply (Hlast raw' a' Hin). split; assumption.
  - rewrite for_each_app_fst. simpl.
    rewrite (source_A_step_valid raw _ Hz Ha). simpl.
    apply dict_get_set_same.
Qed.

Lemma clean_and_seed_drop (l1 l2 : list json) (raw : json) :
  zero_price_or_stock raw = Ret true ->
  clean_and_seed (l1 ++ raw :: l2) = clean_and_seed (l1 ++ l2).
Proof.
  intros Hz. unfold clean_and_seed, clean_and_seed_run.
  apply for_each_skip. intros tp.
  destruct (source_A_step_skip raw tp Hz) as [i [_ ->]]. reflexivity.
Qed.

(** The test of the source on a record whose price and stock are numbers. *)
Lemma zero_price_or_stock_numbers (d : list (string * json))
    (vp vs : json) (bp bs : bool) :
  assoc "price" d = Some vp -> assoc "stock" d = Some vs ->
  py_le_zero vp = Ret bp -> py_le_zero vs = Ret bs ->
  zero_price_or_stock (JDict d) = Ret (bp || bs).
Proof.
  intros Hp Hs Hbp Hbs. unfold zero_price_or_stock, not_positive, py_get.
  rewrite Hp, Hs. simpl. rewrite Hbp. simpl. destruct bp; [reflexivity |].
  rewrite Hbs. reflexivity.
Qed.
End Seed.

Section SeedFacts.
Context {P : Pydantic}.

Lemma at_most_zero_le (v : json) : at_most_zero v -> py_le_zero v = Ret true.
Proof.
  destruct v as [| b | z | f | s | l | d']; simpl; intros Hv;
    try contradiction.
  - subst b. reflexivity.
  - apply Z.leb_le in Hv. rewrite Hv. reflexivity.
  - rewrite Hv. reflexivity.
Qed.

Lemma py_le_zero_false (v : json) : py_le_zero v = Ret false -> ~ at_most_zero v.
Proof.
  intros H Hv. rewrite (at_most_zero_le v Hv) in H. discriminate.
Qed.

(** A price or a stock that is a number at most 0 never passes the test:
    the test answers true, or raises on the other field. *)
Lemma at_most_zero_not_passed (d : list (string * json)) :
  price_or_stock_at_most_zero d -> zero_price_or_stock (JDict d) <> Ret false.
Proof.
  intros [v [[Hp | Hs] Hv]];
    unfold zero_price_or_stock, not_positive, py_get.
  - rewrite Hp. simpl. rewrite (at_most_zero_le v Hv). discriminate.
  - rewrite Hs.
    destruct (assoc "price" d) as [vp |]; simpl; [| discriminate].
    destruct (py_le_zero vp) as [[|] | e]; simpl; [discriminate | | discriminate].
    rewrite (at_most_zero_le v Hv). discriminate.
Qed.

(** A record passes the test only with a price and a stock that are there
    and are not at most 0: a field that is missing counts as 0. *)
Lemma passed_positive (d : list (string * json)) :
  zero_price_or_stock (JDict d) = Ret false ->
  exists vp vs,
    assoc "price" d = Some vp /\ assoc "stock" d = Some vs
    /\ ~ at_most_zero vp /\ ~ at_most_zero vs.
Proof.
  unfold zero_price_or_stock, not_positive, py_get.
  destruct (assoc "price" d) as [vp |]; simpl; [| discriminate].
  destruct (py_le_zero vp) as [[|] | e] eqn:Hp; simpl; try discriminate.
  destruct (assoc "stock" d) as [vs |]; simpl; [| discriminate].
  intros Hs. exists vp, vs.
  split; [reflexivity |]. split; [reflexivity |].
  split; apply py_le_zero_false; assumption.
Qed.

Lemma at_most_zero_step (d : list (string * json)) (tp : products) :
  price_or_stock_at_most_zero d -> fst (source_A_step (JDict d) tp) = tp.
Proof.
  intros H.
  destruct (source_A_step_cases (JDict d) tp) as [E | [a [Hz _]]]; [exact E |].
  exfalso. exact (at_most_zero_not_passed H Hz).
Qed.

Lemma clean_and_seed_at_most_zero (l1 l2 : list json) (d : list (string * json)) :
  price_or_stock_at_most_zero d ->
  clean_and_seed (l1 ++ JDict d :: l2) = clean_and_seed (l1 ++ l2).
Proof.
  intros H. unfold clean_and_seed, clean_and_seed_run.
  apply for_each_skip. intros tp. apply at_most_zero_step, H.
Qed.

Lemma keys_set_In (k k' : Z) (v : ConsolidatedProduct) (d : products) :
  In k (keys d) -> In k (keys (dict_set k' v d)).
Proof.
  intros H. destruct (dict_get k' d) as [e |] eqn:E.
  - rewrite (keys_set_present k' v d E). exact H.
  - rewrite (keys_set_absent k' v d E). apply in_or_app. left. exact H.
Qed.

(** The identifier of an accepted candidate is a key of the mapping, and
    the record under it is that of an accepted candidate with this
    identifier. *)
Lemma clean_and_seed_key (data_a : list json) (raw : json) (a : ProductSourceA) :
  In raw data_a -> accepted raw a ->
  exists raw' a',
    In raw' data_a /\ accepted raw' a' /\ a_id a' = a_id a
    /\ dict_get (a_id a) (clean_and_seed data_a) = Some (consolidated_of a').
Proof.
  intros Hin [Hz Ha].
  assert (Hkey : In (a_id a) (keys (clean_and_seed data_a))).
  { destruct (in_split raw data_a Hin) as [l1 [l2 ->]].
    unfold clean_and_seed, clean_and_seed_run.
    replace (l1 ++ raw :: l2) with ((l1 ++ [raw]) ++ l2)
      by (rewrite <- app_assoc; reflexivity).
    rewrite for_each_app_fst.
    apply (for_each_invariant (fun tp => In (a_id a) (keys tp))).
    - intros raw' tp _ Htp.
      destruct (source_A_step_cases raw' tp) as [-> | [a' [_ [_ ->]]]];
        [exact Htp | apply keys_set_In, Htp].
    - rewrite for_each_app_fst. simpl.
      rewrite (source_A_step_valid raw _ Hz Ha). simpl.
      match goal with
      | |- In _ (keys (dict_set ?k ?v ?tp)) =>
          pose proof (dict_get_In _ _ (dict_get_set_same k v tp)) as Hset
      end.
      apply (in_map fst) in Hset. exact Hset. }
  destruct (dict_get (a_id a) (clean_and_seed data_a)) as [r |] eqn:Hget.
  - destruct (clean_and_seed_comes_from data_a _ _ (dict_get_In _ _ Hget))
      as [raw' [a' [Hin' [Hacc [Hk ->]]]]].
    exists raw', a'. auto.
  - apply dict_get_None_keys in Hget. contradiction.
Qed.
End SeedFacts.

(** C4, as the code has it: whatever the sequence of primary candidates, a
    candidate whose price or stock is a number at most 0 never reaches the
    seeded mapping and leaves it as it would be without the candidate; each
    entry of the mapping is the record of an accepted candidate, under its
    identifier, and no identifier is there twice; an accepted candidate that
    no later accepted candidate shares its identifier with gives the record
    stored under its identifier, with its category rewritten by the synonym
    table without regard to case and left as it is when no synonym matches
    ("laptops" is rewritten, "xyz-unknown" stays); and the identifier of each
    accepted candidate holds the record of an accepted candidate that has
    it.  A record passes the test of price and stock only when both are
    there and neither is at most 0. *)
Theorem clean_and_seed_spec (P : Pydantic) (data_a : list json) :
  (forall d, price_or_stock_at_most_zero d ->
             zero_price_or_stock (JDict d) <> Ret false)
  /\ (forall d, zero_price_or_stock (JDict d) = Ret false ->
                exists vp vs,
                  assoc "price" d = Some vp /\ assoc "stock" d = Some vs
                  /\ ~ at_most_zero vp /\ ~ at_most_zero vs)
  /\ (forall l1 d l2,
         data_a = l1 ++ JDict d :: l2 -> price_or_stock_at_most_zero d ->
         clean_and_seed data_a = clean_and_seed (l1 ++ l2))
  /\ (forall l1 raw l2,
         data_a = l1 ++ raw :: l2 -> zero_price_or_stock raw = Ret true ->
         clean_and_seed data_a = clean_and_seed (l1 ++ l2))
  /\ (forall k r,
         In (k, r) (clean_and_seed data_a) ->
         exists raw a, In raw data_a /\ zero_price_or_stock raw = Ret false
                       /\ ProductSourceA_init raw = Ret a
                       /\ k = a_id a /\ r = consolidated_of a)
  /\ NoDup (keys (clean_and_seed data_a))
  /\ (forall l1 raw l2 a,
         data_a = l1 ++ raw :: l2 -> accepted raw a ->
         (forall raw' a', In raw' l2 -> accepted raw' a' -> a_id a' <> a_id a) ->
         dict_get (a_id a) (clean_and_seed data_a) = Some (consolidated_of a)
         /\ id (consolidated_of a) = a_id a
         /\ category (consolidated_of a) = standardize (a_category a))
  /\ (forall raw a,
         In raw data_a -> accepted raw a ->
         exists raw' a',
           In raw' data_a /\ accepted raw' a' /\ a_id a' = a_id a
           /\ dict_get (a_id a) (clean_and_seed data_a)
              = Some (consolidated_of a'))
  /\ (forall c c',
         lower c = lower c' -> str_in (lower c) synonyms = true ->
         standardize c = standardize c')
  /\ (forall c, str_in (lower c) synonyms = false -> standardize c = c)
  /\ map standardize synonyms
     = ["Ноутбуки"; "Ноутбуки"; "Смартфони"; "Смартфони"; "Аудіотехніка";
        "Аудіотехніка"; "Планшети"; "Носимі пристрої"]
  /\ standardize "laptops" = "Ноутбуки"
  /\ standardize "LapTops" = "Ноутбуки"
  /\ standardize "NOTEBOOKS" = "Ноутбуки"
  /\ standardize "xyz-unknown" = "xyz-unknown".
Proof.
  split; [intros d; apply at_most_zero_not_passed |].
  split; [intros d; apply passed_positive |].
  split; [intros l1 d l2 -> Hd; apply clean_and_seed_at_most_zero, Hd |].
  split; [intros l1 raw l2 -> Hz; apply clean_and_seed_drop, Hz |].
  split.
  { intros k r Hin.
    destruct (clean_and_seed_comes_from data_a k r Hin)
      as [raw [a [Hraw [[Hz Ha] [Hk Hr]]]]].
    exists raw, a. auto. }
  split; [apply clean_and_seed_NoDup |].
  split.
  { intros l1 raw l2 a -> Hacc Hlast.
    split; [apply clean_and_seed_last; assumption | split; reflexivity]. }
  split; [intros raw a; apply clean_and_seed_key |].
  split; [exact standardize_case_insensitive |].
  split; [exact standardize_unmatched |].
  repeat split.
Qed.

Lemma clean_and_seed_spec_witness :
  price_or_stock_at_most_zero
    [("id", JInt 3); ("name", JStr "Headphones Gamma"); ("category", JStr "Audio");
     ("price", JInt 0); ("stock", JInt 5)]
  /\ clean_and_seed (P := strict) sample_data_a
     = clean_and_seed (P := strict) [sample_a1; sample_a2; sample_a4]
  /\ clean_and_seed (P := strict) [sample_a1; negative_price_A]
     = clean_and_seed (P := strict) [sample_a1]
  /\ dict_get 1 (clean_and_seed (P := strict) sample_data_a)
     = Some {| id := 1; name := "Laptop Alpha"; category := "Ноутбуки";
               price := 25000; stock := 10; description := None;
               supplier := None; price_change_percentage := None |}.
Proof.
  assert (H3 : price_or_stock_at_most_zero
                 [("id", JInt 3); ("name", JStr "Headphones Gamma");
                  ("category", JStr "Audio"); ("price", JInt 0); ("stock", JInt 5)]).
  { exists (JInt 0). split; [left; reflexivity | simpl; lia]. }
  assert (H5 : price_or_stock_at_most_zero
                 [("id", JInt 5); ("name", JStr "Tablet Sigma");
                  ("category", JStr "Tablets"); ("price", JFloat (-0.5));
                  ("stock", JInt 4)]).
  { exists (JFloat (-0.5)). split; [left; reflexivity | reflexivity]. }
  split; [exact H3 |]. split; [| split].
  - destruct (clean_and_seed_spec strict sample_data_a) as [_ [_ [Hdrop _]]].
    exact (Hdrop [sample_a1; sample_a2] _ [sample_a4] eq_refl H3).
  - destruct (clean_and_seed_spec strict [sample_a1; negative_price_A])
      as [_ [_ [Hdrop _]]].
    exact (Hdrop [sample_a1] _ [] eq_refl H5).
  - destruct (clean_and_seed_spec strict sample_data_a)
      as [_ [_ [_ [_ [_ [_ [Hlast _]]]]]]].
    refine (proj1 (Hlast [] sample_a1 [sample_a2; sample_a3; sample_a4]
                     {| a_name := "Laptop Alpha"; a_category := "Laptops";
                        a_price := 25000; a_stock := 10; a_id := 1 |}
                     eq_refl (conj eq_refl eq_refl) _)).
    intros raw' a' Hin [Hz Ha]. simpl in Hin.
    destruct Hin as [<- | [<- | [<- | []]]]; vm_compute in Hz, Ha;
      try discriminate; injection Ha as <-; simpl; discriminate.
Defined.

(** Two accepted candidates with one identifier: the mapping holds the
    record of the second, and the first has no record in it. *)
Lemma clean_and_seed_keeps_the_last_of_an_identifier :
  accepted (P := strict) sample_a1
    {| a_name := "Laptop Alpha"; a_category := "Laptops"; a_price := 25000;
       a_stock := 10; a_id := 1 |}
  /\ accepted (P := strict) sample_a1_again
       {| a_name := "Laptop Omega"; a_category := "Tablets"; a_price := 30000;
          a_stock := 7; a_id := 1 |}
  /\ clean_and_seed (P := strict) [sample_a1; sample_a1_again]
     = [(1, {| id := 1; name := "Laptop Omega"; category := "Планшети";
               price := 30000; stock := 7; description := None;
               supplier := None; price_change_percentage := None |})]
  /\ ~ In (1, consolidated_of
                {| a_name := "Laptop Alpha"; a_category := "Laptops";
                   a_price := 25000; a_stock := 10; a_id := 1 |})
          (clean_and_seed (P := strict) [sample_a1; sample_a1_again])
  /\ dict_get 1 (clean_and_seed (P := strict) [sample_a1; sample_a1_again])
     <> Some (consolidated_of
                {| a_name := "Laptop Alpha"; a_category := "Laptops";
                   a_price := 25000; a_stock := 10; a_id := 1 |}).
Proof.
  split; [split; reflexivity |]. split; [split; reflexivity |].
  split; [reflexivity |]. split.
  - intros [H | []]. discriminate H.
  - simpl. discriminate.
Qed.

(** ** No exception leaves [transform_data] *)

Section Isolation.
Context {P : Pydantic}.

Lemma merge_patches_run_total (seed : products) (data_b : list json) :
  exists st log, merge_patches_run seed data_b = Ret (st, log).
Proof.
  unfold merge_patches_run.
  destruct (initial_max_id_total seed) as [m ->]. simpl.
  destruct (for_each data_b source_B_step _) as [st log]. eauto.
Qed.

Lemma transform_data_run_total (data_a data_b : list json) :
  exists out log, transform_data_run data_a data_b = Ret (out, log).
Proof.
  unfold transform_data_run.
  destruct (clean_and_seed_run data_a) as [seed log_a].
  destruct (merge_patches_run_total seed data_b) as [st [log ->]]. simpl. eauto.
Qed.

Lemma transform_data_merge (data_a data_b : list json) :
  transform_data data_a data_b =
  (tp <- merge_patches (clean_and_seed data_a) data_b;; Ret (values tp)).
Proof.
  unfold transform_data, transform_data_run, merge_patches, clean_and_seed.
  destruct (clean_and_seed_run data_a) as [seed log_a]. simpl.
  destruct (merge_patches_run seed data_b) as [[st log] | e]; reflexivity.
Qed.

Lemma fails_A_step (raw : json) (e : exn) (tp : products) :
  fails_A raw e ->
  source_A_step raw tp = (tp, [Warning (SkippingInvalidA raw e)]).
Proof.
  intros [H | [Hz H]].
  - apply source_A_step_guard_raise, H.
  - apply source_A_step_invalid; assumption.
Qed.

Lemma source_B_step_missing (raw : json) (b : ProductSourceB) (st : merge_state) :
  ProductSourceB_init raw = Ret b ->
  dict_get (product_id b) (transformed_products st) = None ->
  has_core_fields b = false ->
  source_B_step raw st =
  (st, [Info (AddingNew (product_id b)); Warning (SkippingMissingCore raw)]).
Proof.
  intros H Hg Hc. rewrite (source_B_step_new raw st H Hg).
  unfold try_except. rewrite (add_new_missing raw b st Hc). reflexivity.
Qed.

Lemma clean_and_seed_without (a1 a2 : list json) (bad : json) (e : exn) :
  fails_A bad e ->
  clean_and_seed (a1 ++ bad :: a2) = clean_and_seed (a1 ++ a2).
Proof.
  intros H. unfold clean_and_seed, clean_and_seed_run.
  apply for_each_skip. intros tp. rewrite (fails_A_step tp H). reflexivity.
Qed.

Lemma merge_patches_without (seed : products) (b1 b2 : list json)
    (bad : json) (e : exn) :
  ProductSourceB_init bad = Raise e ->
  merge_patches seed (b1 ++ bad :: b2) = merge_patches seed (b1 ++ b2).
Proof.
  intros H. unfold merge_patches, merge_patches_run.
  destruct (initial_max_id seed) as [m | e0]; simpl; [| reflexivity].
  f_equal. f_equal. apply for_each_skip. intros st.
  rewrite (source_B_step_invalid bad st H). reflexivity.
Qed.
Lemma merge_patches_without_missing (seed : products) (m : Z)
    (b1 b2 : list json) (raw : json) (b : ProductSourceB) :
  initial_max_id seed = Ret m ->
  ProductSourceB_init raw = Ret b ->
  has_core_fields b = false ->
  dict_get (product_id b)
    (transformed_products
       (fst (for_each b1 source_B_step
               {| transformed_products := seed; current_max_id := m |}))) = None ->
  merge_patches seed (b1 ++ raw :: b2) = merge_patches seed (b1 ++ b2).
Proof.
  intros Hm Hb Hc Hg. unfold merge_patches, merge_patches_run.
  rewrite Hm. simpl. f_equal. f_equal. apply for_each_skip_at.
  rewrite (source_B_step_missing raw _ Hb Hg Hc). reflexivity.
Qed.
End Isolation.

(** X19: for every sequence of raw primary candidates and raw patch
    candidates, [transform_data] returns and raises nothing; a record that
    fails before an identifier is taken for it, that is a record of source A
    failing anywhere in its [try], a patch that [ProductSourceB] refuses, or
    a patch for a new product without its core fields, is logged, leaves the
    state as it found it, and so leaves the result as it would be without
    the record. *)
Theorem failures_are_isolated (P : Pydantic) :
  (forall data_a data_b,
      exists out log, transform_data_run data_a data_b = Ret (out, log)
                      /\ transform_data data_a data_b = Ret out)
  /\ (forall raw tp tp' out e,
         source_A_body raw tp = (tp', out, Raise e) ->
         tp' = tp
         /\ source_A_step raw tp = (tp, out ++ [Warning (SkippingInvalidA raw e)]))
  /\ (forall raw e st,
         ProductSourceB_init raw = Raise e ->
         source_B_step raw st = (st, [Warning (SkippingInvalidB raw e)]))
  /\ (forall raw b st,
         ProductSourceB_init raw = Ret b ->
         dict_get (product_id b) (transformed_products st) = None ->
         has_core_fields b = false ->
         source_B_step raw st =
         (st, [Info (AddingNew (product_id b)); Warning (SkippingMissingCore raw)]))
  /\ (forall a1 a2 b1 b2 bad_a bad_b ea eb,
         fails_A bad_a ea ->
         ProductSourceB_init bad_b = Raise eb ->
         transform_data (a1 ++ bad_a :: a2) (b1 ++ bad_b :: b2)
         = transform_data (a1 ++ a2) (b1 ++ b2))
  /\ (forall seed m b1 b2 raw b,
         initial_max_id seed = Ret m ->
         ProductSourceB_init raw = Ret b ->
         has_core_fields b = false ->
         dict_get (product_id b)
           (transformed_products
              (fst (for_each b1 source_B_step
                      {| transformed_products := seed; current_max_id := m |})))
         = None ->
         merge_patches seed (b1 ++ raw :: b2) = merge_patches seed (b1 ++ b2)).
Proof.
  split.
  { intros data_a data_b.
    destruct (transform_data_run_total data_a data_b) as [out [log H]].
    exists out, log. split; [exact H |].
    unfold transform_data. rewrite H. reflexivity. }
  split; [intros; apply source_A_body_raise; assumption |].
  split; [intros; apply source_B_step_invalid; assumption |].
  split; [intros; apply source_B_step_missing; assumption |].
  split; [| intros; eapply merge_patches_without_missing; eassumption].
  intros a1 a2 b1 b2 bad_a bad_b ea eb Ha Hb.
  rewrite !transform_data_merge.
  rewrite (clean_and_seed_without a1 a2 Ha).
  rewrite (merge_patches_without _ b1 b2 bad_b Hb). reflexivity.
Qed.

Lemma failures_are_isolated_witness :
  fails_A (P := strict) price_is_text TypeError
  /\ fails_A (P := strict) nameless_A ValidationError
  /\ ProductSourceB_init (P := strict) not_a_record = Raise TypeError
  /\ ProductSourceB_init (P := strict) no_product_id = Raise ValidationError
  /\ transform_data (P := strict)
       ([sample_a1] ++ price_is_text :: [sample_a2])
       ([cheaper_B] ++ not_a_record :: [watch_B])
     = transform_data (P := strict) ([sample_a1] ++ [sample_a2])
                      ([cheaper_B] ++ [watch_B])
  /\ transform_data (P := strict)
       ([] ++ nameless_A :: [sample_a1])
       ([] ++ no_product_id :: [])
     = transform_data (P := strict) ([] ++ [sample_a1]) ([] ++ []).
Proof.
  destruct (failures_are_isolated strict) as [_ [_ [_ [_ [Hwithout _]]]]].
  assert (H1 : fails_A (P := strict) price_is_text TypeError)
    by (left; reflexivity).
  assert (H2 : fails_A (P := strict) nameless_A ValidationError)
    by (right; split; reflexivity).
  split; [exact H1 |]. split; [exact H2 |].
  split; [reflexivity |]. split; [reflexivity |]. split.
  - exact (Hwithout [sample_a1] [sample_a2] [cheaper_B] [watch_B]
                    price_is_text not_a_record TypeError TypeError H1 eq_refl).
  - exact (Hwithout [] [sample_a1] [] [] nameless_A no_product_id
                    ValidationError ValidationError H2 eq_refl).
Defined.

(** ** Reading the consolidated file back *)

Section ReadBack.
Context {P : Pydantic}.

Lemma required_raises {A : Type} (d : list (string * json)) (key : string)
    (field : json -> option A) (e : exn) :
  required d key field = Raise e -> e = ValidationError.
Proof.
  unfold required, of_option.
  destruct (assoc key d) as [v |]; [| congruence].
  destruct v; try destruct (field _); congruence.
Qed.

Lemma optional_raises {A : Type} (d : list (string * json)) (key : string)
    (field : json -> option A) (e : exn) :
  optional d key field = Raise e -> e = ValidationError.
Proof.
  unfold optional, of_option.
  destruct (assoc key d) as [v |]; [| congruence].
  destruct v; simpl; try destruct (field _); simpl; congruence.
Qed.

(** Building the model raises nothing but the two errors of a bad record. *)
Lemma ConsolidatedProduct_parse_raises (raw : json) (e : exn) :
  ConsolidatedProduct_parse raw = Raise e -> e = TypeError \/ e = ValidationError.
Proof.
  unfold ConsolidatedProduct_parse. intros H.
  apply bind_Raise_inv in H. destruct H as [H | [d [_ H]]].
  { left. destruct raw; simpl in H; congruence. }
  right.
  repeat (apply bind_Raise_inv in H;
          destruct H as [H | [? [_ H]]];
          [first [apply required_raises in H | apply optional_raises in H];
           exact H |]).
  destruct (ProductBase_ok _ _ _); congruence.
Qed.

Lemma map_py_raises {A B : Type} (f : A -> py B) (l : list A) (bad : A) (e : exn) :
  In bad l -> f bad = Raise e ->
  exists x e', In x l /\ f x = Raise e' /\ map_py f l = Raise e'.
Proof.
  induction l as [| a l IH]; simpl; [intros [] |].
  intros Hin Hbad. destruct (f a) as [b | e0] eqn:Ha.
  - destruct Hin as [-> | Hin]; [congruence |].
    destruct (IH Hin Hbad) as [x [e' [Hx [Hfx Hmap]]]].
    exists x, e'. rewrite Hmap. simpl. auto.
  - exists a, e0. simpl. auto.
Qed.

Lemma get_consolidated_data_invalid (data : json) (items : list json)
    (bad : json) (e : exn) :
  py_iter data = Ret items -> In bad items ->
  ConsolidatedProduct_parse bad = Raise e ->
  get_consolidated_data (Holds data) = Raise (HTTPException 500).
Proof.
  intros Hit Hin Hbad. unfold get_consolidated_data. simpl. rewrite Hit. simpl.
  destruct (map_py_raises ConsolidatedProduct_parse items bad Hin Hbad)
    as [x [e' [_ [Hx ->]]]].
  destruct (ConsolidatedProduct_parse_raises x Hx) as [-> | ->]; reflexivity.
Qed.

Lemma map_py_parse_raises (l : list json) (e : exn) :
  map_py ConsolidatedProduct_parse l = Raise e ->
  e = TypeError \/ e = ValidationError.
Proof.
  induction l as [| a l IH]; simpl; [congruence |].
  intros H. apply bind_Raise_inv in H. destruct H as [H | [b [_ H]]].
  - apply ConsolidatedProduct_parse_raises in H. exact H.
  - apply bind_Raise_inv in H. destruct H as [H | [bs [_ H]]];
      [auto | congruence].
Qed.

Lemma py_iter_raises (data : json) (e : exn) :
  py_iter data = Raise e -> e = TypeError.
Proof.
  destruct data; simpl; congruence.
Qed.

(** The 404 answer is given for a missing file and for nothing else. *)
Lemma get_consolidated_data_404 (f : file) :
  get_consolidated_data f = Raise (HTTPException 404) <-> f = Absent.
Proof.
  split; [| intros ->; reflexivity].
  unfold get_consolidated_data. destruct f as [| | data]; simpl; try congruence.
  destruct (py_iter data) as [items | e] eqn:Hit; simpl.
  - destruct (map_py ConsolidatedProduct_parse items) as [l | e] eqn:E;
      [congruence |].
    destruct (map_py_parse_raises items E) as [-> | ->]; congruence.
  - rewrite (py_iter_raises data Hit). congruence.
Qed.
End ReadBack.

(** C7: reading the consolidated data fails with a not-found error (404) when
    there is no file, as before any run, and with a different error (500)
    when the file is not JSON or holds a record that fails validation; the
    two cannot be mistaken for one another. *)
Theorem get_consolidated_data_errors (P : Pydantic) :
  get_consolidated_data Absent = Raise (HTTPException 404)
  /\ get_consolidated_data Garbled = Raise (HTTPException 500)
  /\ (forall data items bad e,
         py_iter data = Ret items -> In bad items ->
         ConsolidatedProduct_parse bad = Raise e ->
         get_consolidated_data (Holds data) = Raise (HTTPException 500))
  /\ (forall data e,
         py_iter data = Raise e ->
         get_consolidated_data (Holds data) = Raise (HTTPException 500))
  /\ (forall f, get_consolidated_data f = Raise (HTTPException 404) <-> f = Absent)
  /\ (forall data, get_consolidated_data (load_data data)
                   <> Raise (HTTPException 404))
  /\ HTTPException 404 <> HTTPException 500.
Proof.
  split; [reflexivity |]. split; [reflexivity |].
  split; [exact get_consolidated_data_invalid |].
  split.
  { intros data e H. unfold get_consolidated_data. simpl. rewrite H.
    rewrite (py_iter_raises data H). reflexivity. }
  split; [exact get_consolidated_data_404 |].
  split; [| discriminate].
  intros data H. apply get_consolidated_data_404 in H. discriminate.
Qed.

Lemma get_consolidated_data_errors_witness :
  py_iter (JList [to_dict laptop; to_dict negative_price])
  = Ret [to_dict laptop; to_dict negative_price]
  /\ ConsolidatedProduct_parse (P := strict) (to_dict negative_price)
     = Raise ValidationError
  /\ get_consolidated_data (P := strict) (load_data [laptop; negative_price])
     = Raise (HTTPException 500)
  /\ get_consolidated_data (P := strict) (load_data [laptop]) = Ret [laptop].
Proof.
  destruct (get_consolidated_data_errors strict) as [_ [_ [Hinvalid _]]].
  split; [reflexivity |]. split; [reflexivity |]. split.
  - exact (Hinvalid (JList [to_dict laptop; to_dict negative_price])
                    [to_dict laptop; to_dict negative_price]
                    (to_dict negative_price) ValidationError
                    eq_refl (or_intror (or_introl eq_refl)) eq_refl).
  - reflexivity.
Defined.

(** ** Two runs in which the code leaves its own constraints *)

(** Validation of a raw record whose fields have the annotated types. *)
Ltac fields :=
  unfold ProductSourceA_init, ProductSourceB_init, ConsolidatedProduct_parse,
    required, optional;
  cbn;
  repeat (first [rewrite int_field_int | rewrite str_field_str
                 | rewrite float_field_float]; cbn).

Section Runs.
Context {P : Pydantic}.

Lemma laptop_A_init :
  ProductSourceA_init laptop_A =
  Ret {| a_name := "Laptop Alpha"; a_category := "Laptops"; a_price := 100;
         a_stock := 5; a_id := 1 |}.
Proof. fields. reflexivity. Qed.

Lemma negative_B_init :
  ProductSourceB_init negative_B =
  Ret {| product_id := 1; b_name := None; b_category := None;
         b_description := None; b_supplier := None; old_price := None;
         b_price := Some (-5)%float; b_stock := Some (-3) |}.
Proof. fields. reflexivity. Qed.

Lemma negative_price_parse :
  ConsolidatedProduct_parse (to_dict negative_price) = Raise ValidationError.
Proof. fields. reflexivity. Qed.

Lemma short_name_B_init :
  ProductSourceB_init short_name_B =
  Ret {| product_id := 7; b_name := Some "ab"; b_category := Some "Audio";
         b_description := None; b_supplier := None; old_price := None;
         b_price := Some 50%float; b_stock := Some 3 |}.
Proof. fields. reflexivity. Qed.

Lemma speaker_B_init :
  ProductSourceB_init speaker_B =
  Ret {| product_id := 8; b_name := Some "Speaker"; b_category := Some "Audio";
         b_description := None; b_supplier := None; old_price := None;
         b_price := Some 50%float; b_stock := Some 3 |}.
Proof. fields. reflexivity. Qed.

(** A name of two characters is refused, however many bytes spell it. *)
Lemma two_letters_are_refused :
  ProductSourceA_init two_letters_A = Raise ValidationError
  /\ clean_and_seed [two_letters_A] = [].
Proof.
  assert (H : ProductSourceA_init two_letters_A = Raise ValidationError)
    by (fields; reflexivity).
  split; [exact H |].
  unfold clean_and_seed, clean_and_seed_run. simpl.
  rewrite (source_A_step_invalid two_letters_A [] eq_refl H). reflexivity.
Qed.

Lemma speaker_alone :
  merge_patches_run [] [speaker_B] =
  Ret ({| transformed_products := [(1, speaker 1)]; current_max_id := 1 |},
       [Info (AddingNew 8)]).
Proof.
  unfold merge_patches_run. simpl.
  erewrite source_B_step_insert;
    [| exact speaker_B_init | reflexivity ..].
  reflexivity.
Qed.

Lemma speaker_after_refusal :
  merge_patches_run [] [short_name_B; speaker_B] =
  Ret ({| transformed_products := [(2, speaker 2)]; current_max_id := 2 |},
       [Info (AddingNew 7);
        Warning (SkippingInvalidB short_name_B ValidationError);
        Info (AddingNew 8)]).
Proof.
  unfold merge_patches_run. simpl.
  erewrite source_B_step_refused;
    [| exact short_name_B_init | reflexivity ..].
  erewrite source_B_step_insert;
    [| exact speaker_B_init | reflexivity ..].
  reflexivity.
Qed.
End Runs.

(** C1: the claim is that every record of the final mapping has a price
    above 0 and a stock of at least 0, records updated by a patch included.
    The update branch assigns the patch's price and stock to the existing
    record with no check: on this input the final record has price -5 and
    stock -3, and [get_consolidated_data] refuses the file written from it. *)
Theorem patch_breaks_price_and_stock (P : Pydantic) :
  transform_data [laptop_A] [negative_B] = Ret [negative_price]
  /\ PrimFloat.ltb 0%float (price negative_price) = false
  /\ (0 <=? stock negative_price) = false
  /\ ProductBase_ok (name negative_price) (price negative_price)
                    (stock negative_price) = false
  /\ get_consolidated_data (load_data [negative_price])
     = Raise (HTTPException 500).
Proof.
  split.
  { unfold transform_data, transform_data_run, clean_and_seed_run. simpl.
    rewrite (source_A_step_valid laptop_A [] eq_refl laptop_A_init).
    unfold merge_patches_run. simpl.
    erewrite source_B_step_update; [| exact negative_B_init | reflexivity].
    vm_compute. reflexivity. }
  do 3 (split; [reflexivity |]).
  apply (@get_consolidated_data_invalid P (JList [to_dict negative_price])
           [to_dict negative_price] (to_dict negative_price) ValidationError
           eq_refl (or_introl eq_refl) negative_price_parse).
Qed.

(** C3: the claim is that an inserted patch record receives one more than
    the current maximum identifier of the mapping.  The counter is advanced
    before [ConsolidatedProduct] is built, so a patch that has its core
    fields and is then refused uses up an identifier: on an empty mapping the
    next record is stored under 2, where alone it is stored under 1. *)
Theorem refused_insertion_uses_up_an_identifier (P : Pydantic) :
  transform_data [] [short_name_B; speaker_B] = Ret [speaker 2]
  /\ transform_data [] [speaker_B] = Ret [speaker 1]
  /\ merge_patches_run [] [short_name_B]
     = Ret ({| transformed_products := []; current_max_id := 1 |},
            [Info (AddingNew 7);
             Warning (SkippingInvalidB short_name_B ValidationError)]).
Proof.
  split; [| split].
  - unfold transform_data, transform_data_run, clean_and_seed_run.
    cbn [for_each]. rewrite speaker_after_refusal. reflexivity.
  - unfold transform_data, transform_data_run, clean_and_seed_run.
    cbn [for_each]. rewrite speaker_alone. reflexivity.
  - unfold merge_patches_run. simpl.
    erewrite source_B_step_refused;
      [| exact short_name_B_init | reflexivity ..].
    reflexivity.
Qed.

(** C6: the claim is that [transform_data] never raises and that each
    record that fails is logged and leaves the processing of the other
    records as it is.  [transform_data] does return on every input, and the
    failure is logged; but a patch for a new product that carries its core
    fields and is refused by [ConsolidatedProduct] fails after the counter
    was advanced, in the same [try] as the other failures: the state is not
    as the record found it, and the product after it is stored under 2,
    where without the refused record it is stored under 1. *)
Theorem refused_patch_is_not_isolated (P : Pydantic) :
  (forall data_a data_b,
      exists out log, transform_data_run data_a data_b = Ret (out, log)
                      /\ transform_data data_a data_b = Ret out)
  /\ (forall raw b st n c p s,
         ProductSourceB_init raw = Ret b ->
         dict_get (product_id b) (transformed_products st) = None ->
         has_core_fields b = true ->
         b_name b = Some n -> b_category b = Some c ->
         b_price b = Some p -> b_stock b = Some s ->
         ProductBase_ok n p s = false ->
         source_B_step raw st =
         ({| transformed_products := transformed_products st;
             current_max_id := current_max_id st + 1 |},
          [Info (AddingNew (product_id b));
           Warning (SkippingInvalidB raw ValidationError)])
         /\ fst (source_B_step raw st) <> st)
  /\ transform_data_run [] ([] ++ short_name_B :: [speaker_B])
     = Ret ([speaker 2],
            [Info (AddingNew 7);
             Warning (SkippingInvalidB short_name_B ValidationError);
             Info (AddingNew 8)])
  /\ transform_data_run [] ([] ++ [speaker_B])
     = Ret ([speaker 1], [Info (AddingNew 8)])
  /\ transform_data [] ([] ++ short_name_B :: [speaker_B])
     <> transform_data [] ([] ++ [speaker_B]).
Proof.
  assert (H2 : transform_data_run [] [short_name_B; speaker_B]
               = Ret ([speaker 2],
                      [Info (AddingNew 7);
                       Warning (SkippingInvalidB short_name_B ValidationError);
                       Info (AddingNew 8)])).
  { unfold transform_data_run, clean_and_seed_run. cbn [for_each].
    rewrite speaker_after_refusal. reflexivity. }
  assert (H1 : transform_data_run [] [speaker_B]
               = Ret ([speaker 1], [Info (AddingNew 8)])).
  { unfold transform_data_run, clean_and_seed_run. cbn [for_each].
    rewrite speaker_alone. reflexivity. }
  split.
  { intros data_a data_b.
    destruct (transform_data_run_total data_a data_b) as [out [log H]].
    exists out, log. split; [exact H |].
    unfold transform_data. rewrite H. reflexivity. }
  split.
  { intros raw b st n c p s Hb Hg Hc Hn Hcat Hp Hs Hok.
    rewrite (source_B_step_refused raw st Hb Hg Hc Hn Hcat Hp Hs Hok).
    split; [reflexivity |]. cbn [fst]. intros H.
    apply (f_equal current_max_id) in H. simpl in H. lia. }
  split; [exact H2 |]. split; [exact H1 |].
  unfold transform_data. cbn [app]. rewrite H1, H2. simpl. discriminate.
Qed.

Lemma refused_patch_is_not_isolated_witness :
  ProductBase_ok "ab" 50 3 = false
  /\ source_B_step (P := strict) short_name_B
       {| transformed_products := []; current_max_id := 0 |}
     = ({| transformed_products := []; current_max_id := 1 |},
        [Info (AddingNew 7);
         Warning (SkippingInvalidB short_name_B ValidationError)])
  /\ fst (source_B_step (P := strict) short_name_B
            {| transformed_products := []; current_max_id := 0 |})
     <> {| transformed_products := []; current_max_id := 0 |}.
Proof.
  split; [reflexivity |].
  destruct (refused_patch_is_not_isolated strict) as [_ [H _]].
  exact (H short_name_B
           {| product_id := 7; b_name := Some "ab"; b_category := Some "Audio";
              b_description := None; b_supplier := None; old_price := None;
              b_price := Some 50%float; b_stock := Some 3 |}
           {| transformed_products := []; current_max_id := 0 |}
           "ab" "Audio" 50%float 3
           eq_refl eq_refl eq_refl eq_refl eq_refl eq_refl eq_refl eq_refl).
Defined.

(** ** The end-to-end example *)

Section Example.
Context {P : Pydantic}.

Lemma float_field_100 : float_field (JInt 100) = Some 100%float.
Proof.
  rewrite float_field_int by (vm_compute; discriminate). reflexivity.
Qed.

Lemma float_field_90 : float_field (JInt 90) = Some 90%float.
Proof.
  rewrite float_field_int by (vm_compute; discriminate). reflexivity.
Qed.

Lemma example_primary_init (nm : string) :
  ProductSourceA_init (example_primary nm) =
  if 3 <=? Z.of_nat (py_len nm)
  then Ret {| a_name := nm; a_category := "Laptops"; a_price := 100;
              a_stock := 5; a_id := 1 |}
  else Raise ValidationError.
Proof.
  unfold ProductSourceA_init, example_primary, required. cbn.
  rewrite !str_field_str. cbn. rewrite float_field_100. cbn.
  rewrite !int_field_int. cbn. unfold ProductBase_ok.
  destruct (3 <=? Z.of_nat (py_len nm)); reflexivity.
Qed.

Lemma example_patch_init :
  ProductSourceB_init example_patch = Ret cheaper.
Proof.
  unfold ProductSourceB_init, example_patch, required, optional. cbn.
  rewrite int_field_int. cbn. rewrite float_field_100. cbn.
  rewrite float_field_90. reflexivity.
Qed.

Lemma example_seed (nm : string) :
  clean_and_seed_run [example_primary nm] =
  if 3 <=? Z.of_nat (py_len nm)
  then ([(1, {| id := 1; name := nm; category := "Ноутбуки"; price := 100;
                stock := 5; description := None; supplier := None;
                price_change_percentage := None |})], [])
  else ([], [Warning (SkippingInvalidA (example_primary nm) ValidationError)]).
Proof.
  unfold clean_and_seed_run. simpl.
  pose proof (example_primary_init nm) as Hinit.
  destruct (3 <=? Z.of_nat (py_len nm)).
  - rewrite (source_A_step_valid (example_primary nm) [] eq_refl Hinit).
    reflexivity.
  - rewrite (source_A_step_invalid (example_primary nm) [] eq_refl Hinit).
    reflexivity.
Qed.

End Example.

(** C5, as the code has it: on primary
    [{id:1, price:100, stock:5, name:N, category:"Laptops"}] and patch
    [{product_id:1, old_price:100, price:90}] the pipeline gives the single
    record [{id:1, price:90, price_change_percentage:-10.0, category: the
    laptop category, stock:5, name:N}] when [N] has at least three
    characters, and nothing when it is shorter, as "A" is: [ProductBase]
    asks [min_length=3] of a name. *)
Theorem end_to_end_example (P : Pydantic) (nm : string) :
  transform_data [example_primary nm] [example_patch] =
  Ret (if 3 <=? Z.of_nat (py_len nm) then [example_consolidated nm] else []).
Proof.
  unfold transform_data, transform_data_run. rewrite example_seed.
  destruct (3 <=? Z.of_nat (py_len nm)).
  - unfold merge_patches_run. simpl.
    erewrite source_B_step_update; [| exact example_patch_init | reflexivity].
    reflexivity.
  - unfold merge_patches_run. simpl.
    erewrite source_B_step_missing; [| exact example_patch_init | reflexivity ..].
    reflexivity.
Qed.

Lemma end_to_end_example_named_A_is_dropped :
  transform_data (P := strict) [example_primary "A"] [example_patch] = Ret []
  /\ transform_data (P := strict) [example_primary "A"] [example_patch]
     <> Ret [example_consolidated "A"].
Proof.
  split; [vm_compute; reflexivity |].
  vm_compute. discriminate.
Qed.

(** ** Identifiers stay unique *)

Lemma fold_left_max_ge (xs : list Z) (x : Z) :
  x <= fold_left Z.max xs x /\ forall k, In k xs -> k <= fold_left Z.max xs x.
Proof.
  revert x. induction xs as [| y xs IH]; intros x; simpl.
  - split; [lia | intros k []].
  - destruct (IH (Z.max x y)) as [H1 H2]. split; [lia |].
    intros k [<- | Hk]; [lia | auto].
Qed.

Lemma initial_max_id_bound (tp : products) (m : Z) :
  initial_max_id tp = Ret m -> forall k, In k (keys tp) -> k <= m.
Proof.
  destruct tp as [| [k0 v0] tp]; simpl.
  - intros _ k [].
  - intros H. injection H as <-.
    destruct (fold_left_max_ge (keys tp) k0) as [H1 H2].
    intros k [<- | Hk]; auto.
Qed.

Lemma In_keys (k : Z) (r : ConsolidatedProduct) (d : products) :
  In (k, r) d -> In k (keys d).
Proof.
  intros H. unfold keys. change k with (fst (k, r)). apply in_map, H.
Qed.

Section Keys.
Context {P : Pydantic}.

Lemma source_B_step_well_keyed (raw : json) (st : merge_state) :
  well_keyed st -> well_keyed (fst (source_B_step raw st)).
Proof.
  intros [Hnd [Hle Hid]].
  destruct (source_B_step_cases raw st)
    as [-> | [[b [ex [Hg ->]]] | [-> | [product [Hp [_ ->]]]]]].
  - repeat split; assumption.
  - repeat split; simpl.
    + apply NoDup_keys_set, Hnd.
    + rewrite (keys_set_present _ _ _ Hg). exact Hle.
    + intros k r Hin. apply In_dict_set in Hin. destruct Hin as [Heq | Hold].
      * injection Heq as -> ->. simpl. apply Hid, dict_get_In, Hg.
      * apply Hid, Hold.
  - repeat split; simpl; auto. intros k Hk. specialize (Hle k Hk). lia.
  - repeat split; simpl.
    + apply NoDup_keys_set, Hnd.
    + intros k Hk.
      assert (Hfresh : dict_get (current_max_id st + 1) (transformed_products st)
                       = None).
      { apply dict_get_None_keys. intros Hin. specialize (Hle _ Hin). lia. }
      rewrite (keys_set_absent _ _ _ Hfresh) in Hk.
      apply in_app_or in Hk. destruct Hk as [Hk | [<- | []]]; [| lia].
      specialize (Hle k Hk). lia.
    + intros k r Hin. apply In_dict_set in Hin. destruct Hin as [Heq | Hold].
      * injection Heq as -> ->. exact Hp.
      * apply Hid, Hold.
Qed.

Lemma clean_and_seed_ids (data_a : list json) (k : Z) (r : ConsolidatedProduct) :
  In (k, r) (clean_and_seed data_a) -> id r = k.
Proof.
  intros Hin.
  destruct (clean_and_seed_comes_from data_a k r Hin) as [raw [a [_ [_ [-> ->]]]]].
  reflexivity.
Qed.

Lemma values_ids (tp : products) :
  (forall k r, In (k, r) tp -> id r = k) -> map id (values tp) = keys tp.
Proof.
  unfold values, keys. induction tp as [| [k r] tp IH]; simpl; intros H.
  - reflexivity.
  - rewrite (H k r (or_introl eq_refl)). f_equal. apply IH.
    intros k' r' Hin. apply H. right. exact Hin.
Qed.
End Keys.

(** X1: the records that [transform_data] returns have distinct
    identifiers: a new product is stored under a counter that no key has
    reached. *)
Theorem identifiers_are_unique (P : Pydantic) (data_a data_b : list json) :
  exists out, transform_data data_a data_b = Ret out /\ NoDup (map id out).
Proof.
  rewrite transform_data_merge. unfold merge_patches, merge_patches_run.
  destruct (initial_max_id_total (clean_and_seed data_a)) as [m Hm].
  rewrite Hm. simpl. eexists. split; [reflexivity |].
  assert (Hwk : well_keyed
                  (fst (for_each data_b source_B_step
                          {| transformed_products := clean_and_seed data_a;
                             current_max_id := m |}))).
  { apply (for_each_invariant well_keyed).
    - intros raw st _ Hst. apply source_B_step_well_keyed, Hst.
    - repeat split; simpl.
      + apply clean_and_seed_NoDup.
      + apply (initial_max_id_bound _ Hm).
      + apply clean_and_seed_ids. }
  destruct Hwk as [Hnd [_ Hid]].
  rewrite (values_ids _ Hid). exact Hnd.
Qed.

(** ** What source A stores is valid *)

(** X2: every record of the seeded mapping meets the constraints of
    [ProductBase]: a name of three characters or more (characters, not
    bytes), a price above 0 and a stock of at least 0. *)
Theorem seeded_records_are_valid (P : Pydantic) (data_a : list json)
    (k : Z) (r : ConsolidatedProduct) :
  In (k, r) (clean_and_seed data_a) ->
  ProductBase_ok (name r) (price r) (stock r) = true
  /\ (3 <= py_len (name r))%nat
  /\ PrimFloat.ltb 0%float (price r) = true
  /\ 0 <= stock r.
Proof.
  intros Hin.
  destruct (clean_and_seed_comes_from data_a k r Hin)
    as [raw [a [_ [[_ Ha] [_ ->]]]]].
  pose proof (ProductSourceA_init_ok raw Ha) as Hok.
  split; [exact Hok |].
  unfold ProductBase_ok in Hok. simpl.
  apply andb_prop in Hok. destruct Hok as [Hok Hstock].
  apply andb_prop in Hok. destruct Hok as [Hname Hprice].
  split; [apply Z.leb_le in Hname; lia |].
  split; [exact Hprice | apply Z.leb_le, Hstock].
Qed.

Lemma seeded_records_are_valid_witness :
  In (2, {| id := 2; name := "Smartphone Beta"; category := "Смартфони";
            price := 12000; stock := 25; description := None; supplier := None;
            price_change_percentage := None |})
     (clean_and_seed (P := strict) sample_data_a)
  /\ PrimFloat.ltb 0%float 12000%float = true.
Proof.
  assert (Hin : In (2, {| id := 2; name := "Smartphone Beta";
                          category := "Смартфони"; price := 12000; stock := 25;
                          description := None; supplier := None;
                          price_change_percentage := None |})
                   (clean_and_seed (P := strict) sample_data_a))
    by (right; left; reflexivity).
  split; [exact Hin |].
  exact (proj1 (proj2 (proj2 (@seeded_records_are_valid strict sample_data_a 2 _
                                Hin)))).
Defined.

(** * The file round trip *)

Section RoundTrip.
Context {P : Pydantic}.

Lemma optional_str_opt_json (d : list (string * json)) (key : string)
    (o : option string) :
  assoc key d = Some (opt_json JStr o) -> optional d key str_field = Ret o.
Proof.
  intros H. unfold optional. rewrite H.
  destruct o as [s |]; simpl; [rewrite str_field_str |]; reflexivity.
Qed.

Lemma optional_float_opt_json (d : list (string * json)) (key : string)
    (o : option float) :
  assoc key d = Some (opt_json JFloat o) -> optional d key float_field = Ret o.
Proof.
  intros H. unfold optional. rewrite H.
  destruct o as [f |]; simpl; [rewrite float_field_float |]; reflexivity.
Qed.

(** Reading one written record back gives the record, or the validation
    error when it does not meet the constraints. *)
Lemma ConsolidatedProduct_parse_to_dict (c : ConsolidatedProduct) :
  ConsolidatedProduct_parse (to_dict c) =
  if meets_ProductBase c then Ret c else Raise ValidationError.
Proof.
  destruct c as [i n cat p s de su pct].
  unfold ConsolidatedProduct_parse, to_dict, meets_ProductBase, required.
  cbn [unpack bind id name category price stock description supplier
       price_change_percentage].
  cbn [assoc String.eqb Ascii.eqb Bool.eqb of_option bind].
  rewrite !str_field_str, float_field_float, !int_field_int.
  cbn [of_option bind].
  rewrite (optional_str_opt_json _ "description" de) by reflexivity.
  rewrite (optional_str_opt_json _ "supplier" su) by reflexivity.
  rewrite (optional_float_opt_json _ "price_change_percentage" pct) by reflexivity.
  reflexivity.
Qed.

Lemma map_py_parse_to_dict (l : list ConsolidatedProduct) :
  map_py ConsolidatedProduct_parse (map to_dict l) =
  if forallb meets_ProductBase l then Ret l else Raise ValidationError.
Proof.
  induction l as [| c l IH]; simpl; [reflexivity |].
  rewrite ConsolidatedProduct_parse_to_dict.
  destruct (meets_ProductBase c); simpl; [| reflexivity].
  rewrite IH. destruct (forallb meets_ProductBase l); reflexivity.
Qed.
End RoundTrip.

(** X3: what [load_data] wrote, [get_consolidated_data] reads back as the
    same list when every record meets the constraints of [ProductBase], and
    answers 500 as soon as one does not. *)
Theorem read_back_what_was_written (P : Pydantic) (l : list ConsolidatedProduct) :
  get_consolidated_data (load_data l) =
  if forallb meets_ProductBase l then Ret l else Raise (HTTPException 500).
Proof.
  unfold get_consolidated_data, load_data. simpl.
  rewrite map_py_parse_to_dict.
  destruct (forallb meets_ProductBase l); reflexivity.
Qed.

(** X4: [get_consolidated_data] lets no other exception out than the two
    HTTP errors: whatever the file, it returns a list, or raises 404, or
    raises 500; and the list it returns has one record for each item of the
    file, each meeting the constraints of [ProductBase]. *)
Theorem get_consolidated_data_answers (P : Pydantic) (f : file) :
  (exists l, get_consolidated_data f = Ret l
             /\ forallb meets_ProductBase l = true
             /\ exists data items,
                  f = Holds data /\ py_iter data = Ret items
                  /\ List.length l = List.length items)
  \/ get_consolidated_data f = Raise (HTTPException 404)
  \/ get_consolidated_data f = Raise (HTTPException 500).
Proof.
  destruct f as [| | data]; [right; left; reflexivity | right; right; reflexivity |].
  unfold get_consolidated_data. simpl.
  destruct (py_iter data) as [items | e] eqn:Hit; simpl.
  2: { right. right. rewrite (py_iter_raises data Hit). reflexivity. }
  destruct (map_py ConsolidatedProduct_parse items) as [l | e] eqn:Hmap.
  2: { right. right.
       destruct (map_py_parse_raises items Hmap) as [-> | ->]; reflexivity. }
  left. exists l. split; [reflexivity |].
  assert (Hl : forallb meets_ProductBase l = true
               /\ List.length l = List.length items).
  { clear Hit. revert l Hmap. induction items as [| x items IH]; simpl; intros l H.
    - injection H as <-. auto.
    - apply bind_Ret_inv in H. destruct H as [c [Hc H]].
      apply bind_Ret_inv in H. destruct H as [cs [Hcs H]].
      injection H as <-. destruct (IH cs Hcs) as [Hok Hlen]. simpl.
      rewrite Hok, Hlen. split; [| reflexivity].
      rewrite andb_true_r. clear - Hc. unfold ConsolidatedProduct_parse in Hc.
      repeat (apply bind_Ret_inv in Hc; destruct Hc as [? [_ Hc]]).
      unfold meets_ProductBase.
      destruct (ProductBase_ok _ _ _) eqn:E; [| discriminate].
      injection Hc as <-. exact E. }
  destruct Hl as [Hok Hlen]. split; [exact Hok |].
  exists data, items. auto.
Qed.

(** * More on the merge *)

Section Merge.
Context {P : Pydantic}.

(** A step touches no record but the one its patch names. *)
Lemma source_B_step_frame (raw : json) (st : merge_state) (k : Z)
    (r : ConsolidatedProduct) :
  well_keyed st ->
  dict_get k (transformed_products st) = Some r ->
  (forall b, ProductSourceB_init raw = Ret b -> product_id b <> k) ->
  dict_get k (transformed_products (fst (source_B_step raw st))) = Some r.
Proof.
  intros [_ [Hle _]] Hk Hother.
  destruct (ProductSourceB_init raw) as [b | e] eqn:Hb.
  2: { rewrite (source_B_step_invalid raw st Hb). exact Hk. }
  specialize (Hother b eq_refl).
  destruct (dict_get (product_id b) (transformed_products st)) as [ex |] eqn:Hg.
  { rewrite (source_B_step_update raw st Hb Hg). simpl.
    rewrite dict_get_set_other by exact Hother. exact Hk. }
  rewrite (source_B_step_new raw st Hb Hg). unfold try_except.
  destruct (has_core_fields b) eqn:Hc.
  2: { rewrite (add_new_missing raw b st Hc). exact Hk. }
  destruct (has_core_fields_inv b Hc) as [n [c [p [s [Hn [Hcat [Hp Hs]]]]]]].
  rewrite (add_new_core raw b st Hc Hn Hcat Hp Hs).
  destruct (ConsolidatedProduct_init _ _ _ _ _ _ _); simpl; [| exact Hk].
  rewrite dict_get_set_other; [exact Hk |].
  assert (k <= current_max_id st).
  { apply Hle. eapply In_keys, dict_get_In, Hk. }
  lia.
Qed.

(** What a step does to the keys: nothing, or one new key at the end, which
    is the counter it has just reached. *)
Lemma source_B_step_keys (raw : json) (st : merge_state) :
  well_keyed st ->
  (keys (transformed_products (fst (source_B_step raw st)))
   = keys (transformed_products st)
   /\ current_max_id st <= current_max_id (fst (source_B_step raw st)))
  \/ (keys (transformed_products (fst (source_B_step raw st)))
      = keys (transformed_products st) ++ [current_max_id st + 1]
      /\ current_max_id (fst (source_B_step raw st)) = current_max_id st + 1).
Proof.
  intros [_ [Hle _]].
  destruct (source_B_step_cases raw st)
    as [-> | [[b [ex [Hg ->]]] | [-> | [product [_ [_ ->]]]]]]; simpl.
  - left. split; [reflexivity | lia].
  - left. split; [eapply keys_set_present, Hg | lia].
  - left. split; [reflexivity | lia].
  - right. split; [| reflexivity]. apply keys_set_absent.
    apply dict_get_None_keys. intros Hin. specialize (Hle _ Hin). lia.
Qed.

Lemma StronglySorted_cons_above (x : Z) (l : list Z) :
  StronglySorted Z.lt l -> Forall (fun n => x < n) l -> StronglySorted Z.lt (x :: l).
Proof.
  intros Hs Hall. constructor; assumption.
Qed.

(** Over a whole pass the keys met at the start stay in front, in their
    order; the new ones follow, increasing, above the counter at the start. *)
Lemma for_each_keys (xs : list json) (st : merge_state) :
  well_keyed st ->
  exists news,
    keys (transformed_products (fst (for_each xs source_B_step st)))
    = keys (transformed_products st) ++ news
    /\ StronglySorted Z.lt news
    /\ Forall (fun n => current_max_id st < n) news
    /\ (List.length news <= List.length xs)%nat.
Proof.
  revert st. induction xs as [| x xs IH]; intros st Hwk.
  - exists []. simpl. rewrite app_nil_r. repeat split; constructor.
  - pose proof (source_B_step_well_keyed x Hwk) as Hwk1.
    pose proof (source_B_step_keys x Hwk) as Hkeys.
    destruct (IH _ Hwk1) as [news [Hk [Hs [Hall Hlen]]]].
    assert (Hfst : fst (for_each (x :: xs) source_B_step st)
                   = fst (for_each xs source_B_step (fst (source_B_step x st)))).
    { simpl. destruct (source_B_step x st) as [s1 o1]. simpl.
      destruct (for_each xs source_B_step s1). reflexivity. }
    rewrite Hfst, Hk.
    destruct Hkeys as [[-> Hcur] | [-> Hcur]].
    + exists news. repeat split; auto.
      * eapply Forall_impl; [| exact Hall]. simpl. intros; lia.
      * simpl. lia.
    + exists ((current_max_id st + 1) :: news). rewrite <- app_assoc. simpl.
      repeat split.
      * apply StronglySorted_cons_above; [exact Hs |].
        eapply Forall_impl; [| exact Hall]. simpl. intros; lia.
      * constructor; [lia |].
        eapply Forall_impl; [| exact Hall]. simpl. intros; lia.
      * lia.
Qed.

Lemma seed_well_keyed (data_a : list json) (m : Z) :
  initial_max_id (clean_and_seed data_a) = Ret m ->
  well_keyed {| transformed_products := clean_and_seed data_a;
                current_max_id := m |}.
Proof.
  intros Hm. repeat split; simpl.
  - apply clean_and_seed_NoDup.
  - apply (initial_max_id_bound _ Hm).
  - apply clean_and_seed_ids.
Qed.

Lemma for_each_well_keyed (xs : list json) (st : merge_state) :
  well_keyed st -> well_keyed (fst (for_each xs source_B_step st)).
Proof.
  intros H. apply (for_each_invariant well_keyed); [| exact H].
  intros raw s _ Hs. apply source_B_step_well_keyed, Hs.
Qed.

Lemma clean_and_seed_length (data_a : list json) :
  (List.length (clean_and_seed data_a) <= List.length data_a)%nat.
Proof.
  unfold clean_and_seed, clean_and_seed_run.
  enough (H : forall xs tp,
             (List.length (fst (for_each xs source_A_step tp))
              <= List.length tp + List.length xs)%nat)
    by (specialize (H data_a []); simpl in H; exact H).
  induction xs as [| x xs IH]; intros tp; simpl; [lia |].
  assert (Hstep : (List.length (fst (source_A_step x tp)) <= S (List.length tp))%nat).
  { destruct (source_A_step_cases x tp) as [-> | [a [_ [_ ->]]]]; [lia |].
    clear. induction tp as [| [k v] tp IH]; simpl; [lia |].
    destruct (a_id a =? k); simpl; lia. }
  destruct (source_A_step x tp) as [s1 o1]. simpl in Hstep.
  specialize (IH s1). destruct (for_each xs source_A_step s1). simpl in *. lia.
Qed.
End Merge.

(** X5: a seeded record whose identifier no patch names comes out of
    [transform_data] as it was seeded. *)
Theorem unnamed_records_pass_through (P : Pydantic) (data_a data_b : list json)
    (k : Z) (r : ConsolidatedProduct) :
  dict_get k (clean_and_seed data_a) = Some r ->
  (forall raw b, In raw data_b -> ProductSourceB_init raw = Ret b ->
                 product_id b <> k) ->
  exists out, transform_data data_a data_b = Ret out /\ In r out.
Proof.
  intros Hk Hother. rewrite transform_data_merge.
  unfold merge_patches, merge_patches_run.
  destruct (initial_max_id_total (clean_and_seed data_a)) as [m Hm].
  rewrite Hm. simpl. eexists. split; [reflexivity |].
  assert (H : well_keyed
                (fst (for_each data_b source_B_step
                        {| transformed_products := clean_and_seed data_a;
                           current_max_id := m |}))
              /\ dict_get k
                   (transformed_products
                      (fst (for_each data_b source_B_step
                              {| transformed_products := clean_and_seed data_a;
                                 current_max_id := m |}))) = Some r).
  { apply (for_each_invariant
             (fun st => well_keyed st
                        /\ dict_get k (transformed_products st) = Some r)).
    - intros raw st Hin [Hwk Hget]. split.
      + apply source_B_step_well_keyed, Hwk.
      + apply source_B_step_frame; auto. intros b Hb. apply (Hother raw b Hin Hb).
    - split; [apply seed_well_keyed, Hm | exact Hk]. }
  destruct H as [_ Hget]. apply dict_get_In in Hget.
  unfold values. change r with (snd (k, r)). apply in_map, Hget.
Qed.

Lemma unnamed_records_pass_through_witness :
  dict_get 2 (clean_and_seed (P := strict) sample_data_a)
  = Some {| id := 2; name := "Smartphone Beta"; category := "Смартфони";
            price := 12000; stock := 25; description := None; supplier := None;
            price_change_percentage := None |}
  /\ exists out,
       transform_data (P := strict) sample_data_a [sample_b1; sample_b2] = Ret out
       /\ In {| id := 2; name := "Smartphone Beta"; category := "Смартфони";
                price := 12000; stock := 25; description := None;
                supplier := None; price_change_percentage := None |} out.
Proof.
  split; [reflexivity |].
  apply (@unnamed_records_pass_through strict sample_data_a
           [sample_b1; sample_b2] 2 _ eq_refl).
  intros raw b Hin Hb. simpl in Hin.
  destruct Hin as [<- | [<- | []]]; vm_compute in Hb; injection Hb as <-;
    simpl; discriminate.
Defined.

(** X6: in the list that [transform_data] returns, the seeded records come
    first, in the order of the seeded mapping, and the new products follow
    with identifiers that increase along the list and are above every
    seeded identifier; there is at most one new product per patch. *)
Theorem new_products_follow_in_order (P : Pydantic) (data_a data_b : list json) :
  exists out news,
    transform_data data_a data_b = Ret out
    /\ map id out = keys (clean_and_seed data_a) ++ news
    /\ StronglySorted Z.lt news
    /\ Forall (fun n => forall k, In k (keys (clean_and_seed data_a)) -> k < n) news
    /\ (List.length news <= List.length data_b)%nat
    /\ (List.length out <= List.length data_a + List.length data_b)%nat.
Proof.
  rewrite transform_data_merge. unfold merge_patches, merge_patches_run.
  destruct (initial_max_id_total (clean_and_seed data_a)) as [m Hm].
  rewrite Hm. simpl.
  pose proof (seed_well_keyed data_a Hm) as Hwk.
  destruct (for_each_keys data_b Hwk) as [news [Hkeys [Hs [Hall Hlen]]]].
  pose proof (for_each_well_keyed data_b Hwk) as [_ [_ Hid]].
  simpl in Hkeys, Hall.
  eexists. exists news. split; [reflexivity |].
  assert (Hmap : map id
                   (values
                      (transformed_products
                         (fst (for_each data_b source_B_step
                                 {| transformed_products := clean_and_seed data_a;
                                    current_max_id := m |}))))
                 = keys (clean_and_seed data_a) ++ news).
  { rewrite (values_ids _ Hid). exact Hkeys. }
  split; [exact Hmap |]. split; [exact Hs |]. split.
  { eapply Forall_impl; [| exact Hall]. simpl. intros n Hn k Hk.
    pose proof (initial_max_id_bound _ Hm k Hk). lia. }
  split; [exact Hlen |].
  apply (f_equal (@List.length Z)) in Hmap.
  rewrite length_map, length_app in Hmap. unfold keys in Hmap.
  rewrite length_map in Hmap.
  pose proof (clean_and_seed_length data_a). lia.
Qed.

(** * The service *)

Lemma extract_data_done (wa wb : write) (d d' : disk) (ev : list event)
    (data : json * json) :
  extract_data wa wb d = (d', ev, Done data) ->
  d' = settled d
  /\ data = (data_of (source_A d'), data_of (source_B d'))
  /\ source_A d' <> Absent /\ source_B d' <> Absent
  /\ (source_A d = Absent -> wa = Written)
  /\ (source_B d = Absent -> wb = Written).
Proof.
  destruct d as [[| | a] [| | b] c]; destruct wa, wb; cbn; intros H;
    inversion H; subst; cbn; repeat split; congruence.
Qed.

Lemma extract_data_present (wa wb : write) (d : disk) :
  source_A d <> Absent -> source_B d <> Absent ->
  exists ev, extract_data wa wb d
             = (d, ev, Done (data_of (source_A d), data_of (source_B d))).
Proof.
  destruct d as [[| | a] [| | b] c]; cbn; intros Ha Hb; try congruence;
    eexists; reflexivity.
Qed.

Lemma extract_data_crash (wa wb : write) (d d' : disk) (ev : list event)
    (e : io_exn) :
  extract_data wa wb d = (d', ev, Crash e) ->
  e = OSError /\ consolidated d' = consolidated d.
Proof.
  destruct d as [[| | a] [| | b] c]; destruct wa, wb; cbn; intros H;
    inversion H; subst; auto.
Qed.

Section ServiceFacts.
Context {P : Pydantic}.

Lemma run_etl_process_split (wa wb wc : write) (d : disk) :
  run_etl_process wa wb wc d =
  match extract_data wa wb d with
  | (d', ev, Done data) =>
      match after_extract wc data d' with
      | (d'', ev', r) => (d'', EtlStarted :: ev ++ ev', r)
      end
  | (d', ev, Crash e) => (d', EtlStarted :: ev, Crash e)
  end.
Proof.
  unfold run_etl_process, after_extract, io_bind, io_log, io_ret.
  destruct (extract_data wa wb d) as [[d' ev] [data | e]]; [| reflexivity].
  destruct (falsy (fst data) && falsy (snd data));
    destruct (transform_data_json (fst data) (snd data)) as [log [out | e]];
    destruct wc; reflexivity.
Qed.

(** What the second half does to the disk and what it answers. *)
Lemma after_extract_cases (wc : write) (data : json * json) (d : disk) :
  match transform_data_json (fst data) (snd data) with
  | (_, Raise e) =>
      exists ev, after_extract wc data d = (d, ev, Crash (Uncaught e))
  | (_, Ret out) =>
      exists ev,
        after_extract wc data d =
        (match wc with
         | Written => set_consolidated (load_data out) d
         | Refused => d
         | Broken => set_consolidated Garbled d
         end, ev, Done (List.length out))
  end.
Proof.
  unfold after_extract.
  destruct (transform_data_json (fst data) (snd data)) as [log [out | e]];
    destruct (falsy (fst data) && falsy (snd data)); destruct wc; cbn;
    eexists; reflexivity.
Qed.

(** The transformation of raw values is the one of lists once both values
    can be iterated, and raises [TypeError] otherwise. *)
Lemma transform_data_json_lists (data_a data_b : json) (xs ys : list json) :
  py_iter data_a = Ret xs -> py_iter data_b = Ret ys ->
  snd (transform_data_json data_a data_b) = transform_data xs ys.
Proof.
  intros Ha Hb. unfold transform_data_json, transform_data, transform_data_run,
    merge_patches_run.
  rewrite Ha, Hb. destruct (clean_and_seed_run xs) as [seed log_a].
  destruct (initial_max_id seed) as [m | e]; simpl; [| reflexivity].
  destruct (for_each ys source_B_step _) as [st log_b]. reflexivity.
Qed.

Lemma transform_data_json_Ret (data_a data_b : json) (log : list log_entry)
    (out : list ConsolidatedProduct) :
  transform_data_json data_a data_b = (log, Ret out) ->
  exists xs ys, py_iter data_a = Ret xs /\ py_iter data_b = Ret ys
                /\ transform_data xs ys = Ret out.
Proof.
  intros H. destruct (py_iter data_a) as [xs | e] eqn:Ha.
  2: { unfold transform_data_json in H. rewrite Ha in H. discriminate. }
  destruct (py_iter data_b) as [ys | e] eqn:Hb.
  - exists xs, ys. rewrite <- (transform_data_json_lists _ _ Ha Hb), H. auto.
  - unfold transform_data_json in H. rewrite Ha, Hb in H.
    destruct (clean_and_seed_run xs) as [seed log_a].
    destruct (initial_max_id seed); discriminate.
Qed.

Lemma transform_data_json_Raise (data_a data_b : json) (log : list log_entry)
    (e : exn) :
  transform_data_json data_a data_b = (log, Raise e) ->
  e = TypeError /\ (exists e', py_iter data_a = Raise e'
                               \/ py_iter data_b = Raise e').
Proof.
  unfold transform_data_json. intros H.
  destruct (py_iter data_a) as [xs | ea] eqn:Ha.
  2: { injection H as _ <-. split; [apply (py_iter_raises _ Ha) | eauto]. }
  destruct (clean_and_seed_run xs) as [seed log_a].
  destruct (initial_max_id_total seed) as [m Hm]. rewrite Hm in H.
  destruct (py_iter data_b) as [ys | eb] eqn:Hb.
  - destruct (for_each ys source_B_step _). discriminate.
  - injection H as _ <-. split; [apply (py_iter_raises _ Hb) | eauto].
Qed.
End ServiceFacts.

Section ServiceProofs.
Context {P : Pydantic}.

Lemma transform_data_NoDup (xs ys : list json) (out : list ConsolidatedProduct) :
  transform_data xs ys = Ret out -> NoDup (map id out).
Proof.
  rewrite transform_data_merge. unfold merge_patches, merge_patches_run.
  destruct (initial_max_id_total (clean_and_seed xs)) as [m Hm].
  rewrite Hm. simpl. intros H. injection H as <-.
  destruct (for_each_well_keyed ys (seed_well_keyed xs Hm)) as [Hnd [_ Hid]].
  rewrite (values_ids _ Hid). exact Hnd.
Qed.

(** A run that answers: what it read, what it computed, what it left. *)
Lemma run_etl_process_done (wa wb wc : write) (d d' : disk) (ev : list event)
    (n : nat) :
  run_etl_process wa wb wc d = (d', ev, Done n) ->
  exists log out,
    transform_data_json (data_of (source_A (settled d)))
                        (data_of (source_B (settled d))) = (log, Ret out)
    /\ n = List.length out
    /\ (source_A d = Absent -> wa = Written)
    /\ (source_B d = Absent -> wb = Written)
    /\ d' = match wc with
            | Written => set_consolidated (load_data out) (settled d)
            | Refused => settled d
            | Broken => set_consolidated Garbled (settled d)
            end.
Proof.
  rewrite run_etl_process_split.
  destruct (extract_data wa wb d) as [[de ev0] [data | e]] eqn:He;
    [| discriminate].
  destruct (extract_data_done wa wb d He) as [-> [-> [_ [_ [Hwa Hwb]]]]].
  pose proof (after_extract_cases wc
                (data_of (source_A (settled d)), data_of (source_B (settled d)))
                (settled d)) as Hc.
  cbn [fst snd] in Hc.
  destruct (transform_data_json _ _) as [log [out | e]] eqn:Ht.
  - destruct Hc as [ev1 ->]. intros H. injection H as <- _ <-.
    exists log, out. auto.
  - destruct Hc as [ev1 ->]. discriminate.
Qed.

Lemma settled_present (d : disk) :
  source_A (settled d) <> Absent /\ source_B (settled d) <> Absent.
Proof.
  destruct d as [[| | a] [| | b] c]; cbn; split; congruence.
Qed.

Lemma settled_fixed (d : disk) :
  source_A d <> Absent -> source_B d <> Absent -> settled d = d.
Proof.
  destruct d as [[| | a] [| | b] c]; cbn; intros; try congruence; reflexivity.
Qed.

(** A run on a disk whose sources exist. *)
Lemma run_etl_process_present (wa wb wc : write) (d : disk) :
  source_A d <> Absent -> source_B d <> Absent ->
  match transform_data_json (data_of (source_A d)) (data_of (source_B d)) with
  | (_, Raise e) =>
      exists ev, run_etl_process wa wb wc d = (d, ev, Crash (Uncaught e))
  | (_, Ret out) =>
      exists ev,
        run_etl_process wa wb wc d =
        (match wc with
         | Written => set_consolidated (load_data out) d
         | Refused => d
         | Broken => set_consolidated Garbled d
         end, ev, Done (List.length out))
  end.
Proof.
  intros Ha Hb. rewrite run_etl_process_split.
  destruct (extract_data_present wa wb d Ha Hb) as [ev0 ->].
  pose proof (after_extract_cases wc
                (data_of (source_A d), data_of (source_B d)) d) as Hc.
  cbn [fst snd] in Hc.
  destruct (transform_data_json _ _) as [log [out | e]];
    destruct Hc as [ev1 ->]; eexists; reflexivity.
Qed.
End ServiceProofs.

(** X7: after a run of [run_etl_process] that answered and whose write went
    through, the consolidated file holds the records the run counted, their
    identifiers are distinct, and [get_consolidated_data] returns exactly
    them when each meets the constraints of [ProductBase], and answers 500
    otherwise. *)
Theorem run_then_get (P : Pydantic) (wa wb : write) (d d' : disk)
    (ev : list event) (n : nat) :
  run_etl_process wa wb Written d = (d', ev, Done n) ->
  exists out,
    n = List.length out
    /\ consolidated d' = load_data out
    /\ NoDup (map id out)
    /\ get_consolidated_data (consolidated d') =
       (if forallb meets_ProductBase out then Ret out
        else Raise (HTTPException 500)).
Proof.
  intros H.
  destruct (run_etl_process_done wa wb Written d H)
    as [log [out [Ht [Hn [_ [_ ->]]]]]].
  exists out. split; [exact Hn |]. split; [reflexivity |]. split.
  - destruct (transform_data_json_Ret _ _ Ht) as [xs [ys [_ [_ Hout]]]].
    apply (transform_data_NoDup xs ys Hout).
  - cbn [consolidated set_consolidated].
    unfold get_consolidated_data, load_data. simpl.
    rewrite map_py_parse_to_dict.
    destruct (forallb meets_ProductBase out); reflexivity.
Qed.

Lemma run_then_get_witness :
  run_etl_process (P := strict) Written Written Written fresh_install
  = (fst (fst (run_etl_process (P := strict) Written Written Written fresh_install)),
     snd (fst (run_etl_process (P := strict) Written Written Written fresh_install)),
     Done 3%nat)
  /\ exists out,
       3%nat = List.length out
       /\ NoDup (map id out)
       /\ get_consolidated_data (P := strict)
            (consolidated
               (fst (fst (run_etl_process (P := strict) Written Written Written
                            fresh_install))))
          = (if forallb meets_ProductBase out then Ret out
             else Raise (HTTPException 500)).
Proof.
  assert (H : run_etl_process (P := strict) Written Written Written fresh_install
              = (fst (fst (run_etl_process (P := strict) Written Written Written
                             fresh_install)),
                 snd (fst (run_etl_process (P := strict) Written Written Written
                             fresh_install)),
                 Done 3%nat))
    by (vm_compute; reflexivity).
  split; [exact H |].
  destruct (@run_then_get strict Written Written fresh_install _ _ _ H)
    as [out [Hn [_ [Hnd Hget]]]].
  exists out. auto.
Defined.

(** X8: a run that answered and wrote its result can be repeated: the second
    run, whatever would become of a write of samples, leaves the disk as the
    first left it and reports the same count. *)
Theorem run_is_idempotent (P : Pydantic) (wa wb wa' wb' : write) (d d1 : disk)
    (ev : list event) (n : nat) :
  run_etl_process wa wb Written d = (d1, ev, Done n) ->
  exists ev', run_etl_process wa' wb' Written d1 = (d1, ev', Done n).
Proof.
  intros H.
  destruct (run_etl_process_done wa wb Written d H)
    as [log [out [Ht [-> [_ [_ ->]]]]]].
  destruct (settled_present d) as [Ha Hb].
  pose proof (run_etl_process_present wa' wb' Written
                (set_consolidated (load_data out) (settled d)) Ha Hb) as Hrun.
  cbn [source_A source_B set_consolidated] in Hrun. rewrite Ht in Hrun.
  destruct Hrun as [ev' Hrun]. exists ev'. rewrite Hrun. reflexivity.
Qed.

Lemma run_is_idempotent_witness :
  exists ev',
    run_etl_process (P := strict) Refused Broken Written
      (fst (fst (run_etl_process (P := strict) Written Written Written fresh_install)))
    = (fst (fst (run_etl_process (P := strict) Written Written Written fresh_install)),
       ev', Done 3%nat).
Proof.
  apply (@run_is_idempotent strict Written Written Refused Broken fresh_install _
           (snd (fst (run_etl_process (P := strict) Written Written Written
                        fresh_install)))).
  vm_compute. reflexivity.
Defined.

Section Garbled.
Context {P : Pydantic}.

Lemma after_extract_same (wc : write) (data : json * json) (d1 d2 : disk) :
  consolidated d1 = consolidated d2 ->
  snd (after_extract wc data d1) = snd (after_extract wc data d2)
  /\ consolidated (fst (fst (after_extract wc data d1)))
     = consolidated (fst (fst (after_extract wc data d2))).
Proof.
  intros Hc.
  pose proof (after_extract_cases wc data d1) as H1.
  pose proof (after_extract_cases wc data d2) as H2.
  destruct (transform_data_json (fst data) (snd data)) as [log [out | e]];
    destruct H1 as [ev1 ->]; destruct H2 as [ev2 ->]; cbn [fst snd];
    destruct wc; cbn; auto.
Qed.

Lemma extract_data_garbled_A (wa wb : write) (d : disk) :
  alike (extract_data wa wb (set_source_A Garbled d))
        (extract_data wa wb (set_source_A (Holds (JList [])) d)).
Proof.
  destruct d as [a [| | b] c]; destruct wb; cbn; split; reflexivity.
Qed.

Lemma extract_data_garbled_B (wa wb : write) (d : disk) :
  alike (extract_data wa wb (set_source_B Garbled d))
        (extract_data wa wb (set_source_B (Holds (JList [])) d)).
Proof.
  destruct d as [[| | a] b c]; destruct wa; cbn; split; reflexivity.
Qed.

Lemma run_etl_process_alike (wa wb wc : write) (d1 d2 : disk) :
  alike (extract_data wa wb d1) (extract_data wa wb d2) ->
  snd (run_etl_process wa wb wc d1) = snd (run_etl_process wa wb wc d2)
  /\ consolidated (fst (fst (run_etl_process wa wb wc d1)))
     = consolidated (fst (fst (run_etl_process wa wb wc d2))).
Proof.
  unfold alike. rewrite !run_etl_process_split.
  destruct (extract_data wa wb d1) as [[e1 ev1] r1].
  destruct (extract_data wa wb d2) as [[e2 ev2] r2].
  cbn [fst snd]. intros [<- Hc].
  destruct r1 as [data | e]; [| auto].
  destruct (after_extract_same wc data e1 e2 Hc) as [Hr Hcons].
  destruct (after_extract wc data e1) as [[x1 y1] z1].
  destruct (after_extract wc data e2) as [[x2 y2] z2].
  cbn [fst snd] in *. auto.
Qed.
End Garbled.

(** X9: a source file whose text [json.load] refuses with
    [JSONDecodeError] counts as an empty list: the run answers the same and
    leaves the same consolidated file as it does when the file holds [[]];
    so for source A and for source B. *)
Theorem garbled_source_counts_as_empty (P : Pydantic) (wa wb wc : write) (d : disk) :
  (snd (run_etl_process wa wb wc (set_source_A Garbled d))
   = snd (run_etl_process wa wb wc (set_source_A (Holds (JList [])) d))
   /\ consolidated (fst (fst (run_etl_process wa wb wc (set_source_A Garbled d))))
      = consolidated
          (fst (fst (run_etl_process wa wb wc (set_source_A (Holds (JList [])) d)))))
  /\ (snd (run_etl_process wa wb wc (set_source_B Garbled d))
      = snd (run_etl_process wa wb wc (set_source_B (Holds (JList [])) d))
      /\ consolidated (fst (fst (run_etl_process wa wb wc (set_source_B Garbled d))))
         = consolidated
             (fst (fst (run_etl_process wa wb wc
                          (set_source_B (Holds (JList [])) d))))).
Proof.
  split; apply run_etl_process_alike;
    [apply extract_data_garbled_A | apply extract_data_garbled_B].
Qed.

(** Membership in a list built from appended pieces. *)
Ltac find_in :=
  first [ solve [simpl; auto 10]
        | apply in_cons; find_in
        | apply in_or_app; first [ left; solve [find_in] | right; find_in ] ].

Section Failures.
Context {P : Pydantic}.

Lemma after_extract_log (wc : write) (data : json * json) (d d' : disk)
    (ev : list event) (n : nat) :
  after_extract wc data d = (d', ev, Done n) ->
  In EtlFinished ev
  /\ In (match wc with
         | Written => LoadedTo CONSOLIDATED_DATA_PATH
         | _ => ErrorWriting CONSOLIDATED_DATA_PATH
         end) ev.
Proof.
  unfold after_extract, io_bind, io_log, io_ret, load_data_to.
  destruct (falsy (fst data) && falsy (snd data));
    destruct (transform_data_json (fst data) (snd data)) as [log [out | e]];
    destruct wc; intros H; inversion H; subst; clear H;
    split; find_in.
Qed.

Lemma transform_data_json_not_iterable (data_a data_b : json) (e : exn) :
  py_iter data_a = Raise e \/ py_iter data_b = Raise e ->
  snd (transform_data_json data_a data_b) = Raise TypeError.
Proof.
  unfold transform_data_json. intros [H | H].
  - rewrite H. rewrite (py_iter_raises _ H). reflexivity.
  - destruct (py_iter data_a) as [xs | ea] eqn:Ha.
    + destruct (clean_and_seed_run xs) as [seed log_a].
      destruct (initial_max_id_total seed) as [m ->]. rewrite H.
      rewrite (py_iter_raises _ H). reflexivity.
    + rewrite (py_iter_raises _ Ha). reflexivity.
Qed.

Lemma extract_data_crash_cause (wa wb : write) (d d' : disk) (ev : list event)
    (e : io_exn) :
  extract_data wa wb d = (d', ev, Crash e) ->
  (source_A d = Absent /\ wa <> Written)
  \/ (source_B d = Absent /\ wb <> Written).
Proof.
  destruct d as [[| | a] [| | b] c]; destruct wa, wb; cbn; intros H;
    inversion H; subst;
    first [left; split; [reflexivity | discriminate]
          | right; split; [reflexivity | discriminate]].
Qed.
End Failures.

(** X10: [run_etl_process] answers with its count whether or not the
    consolidated file could be written: a run that answered with one outcome
    of the write answers the same with any other.  When [open] was refused
    the file is as it was before the run; when the writing broke off the
    file is there and [get_consolidated_data] answers 500.  The error is
    only logged, followed by the line of a finished run. *)
Theorem failed_write_is_reported_as_success (P : Pydantic) (wa wb wc : write)
    (d d' : disk) (ev : list event) (n : nat) :
  run_etl_process wa wb wc d = (d', ev, Done n) ->
  (forall wc', snd (run_etl_process wa wb wc' d) = Done n)
  /\ (wc = Refused -> consolidated d' = consolidated d)
  /\ (wc = Broken ->
      get_consolidated_data (consolidated d') = Raise (HTTPException 500))
  /\ (wc <> Written -> In (ErrorWriting CONSOLIDATED_DATA_PATH) ev)
  /\ In EtlFinished ev.
Proof.
  intros H.
  destruct (run_etl_process_done wa wb wc d H)
    as [log [out [Ht [-> [Hwa [Hwb ->]]]]]].
  split.
  { intros wc'. rewrite run_etl_process_split.
    rewrite run_etl_process_split in H.
    destruct (extract_data wa wb d) as [[de ev0] [data | e]] eqn:He;
      [| discriminate].
    destruct (extract_data_done wa wb d He) as [-> [-> _]].
    pose proof (after_extract_cases wc'
                  (data_of (source_A (settled d)), data_of (source_B (settled d)))
                  (settled d)) as Hc.
    cbn [fst snd] in Hc. rewrite Ht in Hc. destruct Hc as [ev1 ->].
    reflexivity. }
  split; [intros ->; reflexivity |].
  split; [intros ->; reflexivity |].
  rewrite run_etl_process_split in H.
  destruct (extract_data wa wb d) as [[de ev0] [data | e]]; [| discriminate].
  destruct (after_extract wc data de) as [[d2 ev2] r2] eqn:Ha.
  injection H as _ <- ->.
  destruct (after_extract_log wc data de Ha) as [Hfin Hw].
  split.
  - intros Hwc. right. apply in_or_app. right.
    destruct wc; [congruence | exact Hw | exact Hw].
  - right. apply in_or_app. right. exact Hfin.
Qed.

Lemma failed_write_is_reported_as_success_witness :
  snd (run_etl_process (P := strict) Written Written Broken fresh_install)
  = Done 3%nat
  /\ snd (run_etl_process (P := strict) Written Written Written fresh_install)
     = Done 3%nat
  /\ get_consolidated_data (P := strict)
       (consolidated
          (fst (fst (run_etl_process (P := strict) Written Written Broken
                       fresh_install))))
     = Raise (HTTPException 500).
Proof.
  assert (H : run_etl_process (P := strict) Written Written Broken fresh_install
              = (fst (fst (run_etl_process (P := strict) Written Written Broken
                             fresh_install)),
                 snd (fst (run_etl_process (P := strict) Written Written Broken
                             fresh_install)),
                 Done 3%nat))
    by (vm_compute; reflexivity).
  destruct (@failed_write_is_reported_as_success strict Written Written Broken
              fresh_install _ _ _ H) as [Hany [_ [Hbroken _]]].
  split; [apply Hany |]. split; [apply Hany | apply Hbroken; reflexivity].
Defined.

(** X11: two ways in which [run_etl_process] fails, each leaving the
    consolidated file as it was.  When a source is missing and its sample
    cannot be written, the [OSError] of the write leaves the function, and
    nothing is read or transformed.  When both source files are there, each
    holding a JSON value or a text that [json.load] refuses with
    [JSONDecodeError], and one holds a JSON value that cannot be iterated, a
    number, a boolean or [null], the [TypeError] of the loop leaves
    [transform_data] and the function, and no file is touched. *)
Theorem run_fails_on (P : Pydantic) (wa wb wc : write) (d : disk) :
  (source_A d = Absent -> wa <> Written ->
   exists d', run_etl_process wa wb wc d = (d', [EtlStarted], Crash OSError)
              /\ consolidated d' = consolidated d
              /\ source_B d' = source_B d)
  /\ (source_B d = Absent -> wb <> Written ->
      exists d' ev, run_etl_process wa wb wc d = (d', ev, Crash OSError)
                    /\ consolidated d' = consolidated d)
  /\ (source_A d <> Absent -> source_B d <> Absent ->
      (exists e', py_iter (data_of (source_A d)) = Raise e'
                  \/ py_iter (data_of (source_B d)) = Raise e') ->
      exists ev, run_etl_process wa wb wc d = (d, ev, Crash (Uncaught TypeError))).
Proof.
  split; [| split].
  - intros Ha Hwa. rewrite run_etl_process_split.
    destruct d as [a b c]. simpl in Ha. subst a.
    destruct wa; [congruence | |]; cbn; eexists; repeat split.
  - intros Hb Hwb. rewrite run_etl_process_split.
    destruct (extract_data wa wb d) as [[de ev0] [data | e0]] eqn:He.
    + destruct (extract_data_done wa wb d He) as [_ [_ [_ [_ [_ Hw]]]]].
      exfalso. apply Hwb, Hw, Hb.
    + destruct (extract_data_crash wa wb d He) as [-> Hc].
      exists de, (EtlStarted :: ev0). auto.
  - intros Ha Hb [e' He'].
    pose proof (run_etl_process_present wa wb wc d Ha Hb) as Hrun.
    pose proof (transform_data_json_not_iterable _ _ He') as Ht.
    destruct (transform_data_json _ _) as [log r]. simpl in Ht. subst r.
    exact Hrun.
Qed.

Lemma run_fails_on_witness :
  (exists d', run_etl_process (P := strict) Refused Written Written fresh_install
              = (d', [EtlStarted], Crash OSError)
              /\ consolidated d' = Absent)
  /\ (exists ev,
        run_etl_process (P := strict) Written Written Written number_in_source_A
        = (number_in_source_A, ev, Crash (Uncaught TypeError))).
Proof.
  destruct (@run_fails_on strict Refused Written Written fresh_install)
    as [H1 _].
  destruct (@run_fails_on strict Written Written Written number_in_source_A)
    as [_ [_ H3]].
  split.
  - destruct (H1 eq_refl ltac:(discriminate)) as [d' [Hrun [Hc _]]].
    exists d'. split; [exact Hrun | exact Hc].
  - apply H3; [discriminate | discriminate |].
    exists TypeError. left. reflexivity.
Defined.

(** X12: [extract_data] never reports a source as missing: a source that is
    not there is written from the sample before it is read, and the sample
    is what is extracted; when that write fails the function raises instead
    of going on with an empty list. *)
Theorem extract_data_never_reports_missing (wa wb : write) (d : disk) :
  existsb is_missing_report (snd (fst (extract_data wa wb d))) = false
  /\ (source_A d = Absent ->
      match extract_data wa wb d with
      | (d', ev, Done data) =>
          fst data = JList sample_data_a
          /\ source_A d' = Holds (JList sample_data_a)
          /\ In (CreatedSample SOURCE_A_PATH) ev
      | (_, _, Crash e) => e = OSError
      end)
  /\ (source_B d = Absent ->
      match extract_data wa wb d with
      | (d', ev, Done data) =>
          snd data = JList sample_data_b
          /\ source_B d' = Holds (JList sample_data_b)
          /\ In (CreatedSample SOURCE_B_PATH) ev
      | (_, _, Crash e) => e = OSError
      end).
Proof.
  destruct d as [[| | a] [| | b] c]; destruct wa, wb; cbn;
    repeat split; try discriminate; auto.
Qed.

Lemma extract_data_never_reports_missing_witness :
  source_A fresh_install = Absent
  /\ existsb is_missing_report
       (snd (fst (extract_data Written Written fresh_install))) = false
  /\ match extract_data Written Refused fresh_install with
     | (_, _, Done _) => False
     | (_, _, Crash e) => e = OSError
     end.
Proof.
  split; [reflexivity |]. split.
  - exact (proj1 (extract_data_never_reports_missing Written Written fresh_install)).
  - exact (proj1 (proj2 (extract_data_never_reports_missing Written Refused
                           fresh_install)) eq_refl).
Defined.

(** * More on categories and identifiers *)

Lemma standardize_matched (c : string) :
  str_in (lower c) synonyms = true -> In (standardize c) standard_names.
Proof.
  unfold standardize, synonyms, standard_names, str_in. simpl. intros H.
  repeat match goal with
         | |- context [(?x =? ?y)%string] =>
             destruct (x =? y)%string eqn:?; simpl in *; auto 10
         end.
  discriminate.
Qed.

(** X13: rewriting a category twice is rewriting it once: [standardize]
    gives one of the five names of the source when a synonym matches, the
    category itself when none does, and leaves each of its results alone. *)
Theorem standardize_idempotent (c : string) :
  standardize (standardize c) = standardize c
  /\ (str_in (lower c) synonyms = true -> In (standardize c) standard_names)
  /\ (str_in (lower c) synonyms = false -> standardize c = c).
Proof.
  split; [| split; [apply standardize_matched | apply standardize_unmatched]].
  destruct (str_in (lower c) synonyms) eqn:E.
  - pose proof (standardize_matched c E) as Hin. simpl in Hin.
    destruct Hin as [<- | [<- | [<- | [<- | [<- | []]]]]]; reflexivity.
  - rewrite (standardize_unmatched c E). apply standardize_unmatched, E.
Qed.

Lemma standardize_idempotent_witness :
  str_in (lower "NoteBooks") synonyms = true
  /\ standardize (standardize "NoteBooks") = standardize "NoteBooks"
  /\ In (standardize "NoteBooks") standard_names.
Proof.
  destruct (standardize_idempotent "NoteBooks") as [H1 [H2 _]].
  split; [reflexivity |]. split; [exact H1 | exact (H2 eq_refl)].
Defined.

Lemma fold_left_max_In (l : list Z) (x : Z) :
  fold_left Z.max l x = x \/ In (fold_left Z.max l x) l.
Proof.
  revert x. induction l as [| y l IH]; intros x; simpl; [auto |].
  destruct (IH (Z.max x y)) as [H | H]; [| auto].
  rewrite H. destruct (Z.max_spec x y) as [[_ E] | [_ E]]; rewrite E; auto.
Qed.

Section Bounds.
Context {P : Pydantic}.

(** A step in which no new product is refused moves the counter only when
    it stores a record. *)
Lemma source_B_step_keys_exact (raw : json) (st : merge_state) :
  well_keyed st ->
  (forall b, ProductSourceB_init raw = Ret b -> has_core_fields b = true ->
             forall n p s, b_name b = Some n -> b_price b = Some p ->
                           b_stock b = Some s -> ProductBase_ok n p s = true) ->
  (keys (transformed_products (fst (source_B_step raw st)))
   = keys (transformed_products st)
   /\ current_max_id (fst (source_B_step raw st)) = current_max_id st)
  \/ (keys (transformed_products (fst (source_B_step raw st)))
      = keys (transformed_products st) ++ [current_max_id st + 1]
      /\ current_max_id (fst (source_B_step raw st)) = current_max_id st + 1).
Proof.
  intros [_ [Hle _]] Hvalid.
  destruct (ProductSourceB_init raw) as [b | e] eqn:Hb.
  2: { rewrite (source_B_step_invalid raw st Hb). auto. }
  destruct (dict_get (product_id b) (transformed_products st)) as [ex |] eqn:Hg.
  { rewrite (source_B_step_update raw st Hb Hg). simpl. left.
    split; [eapply keys_set_present, Hg | reflexivity]. }
  destruct (has_core_fields b) eqn:Hc.
  2: { rewrite (source_B_step_new raw st Hb Hg). unfold try_except.
       rewrite (add_new_missing raw b st Hc). auto. }
  destruct (has_core_fields_inv b Hc) as [n [c [p [s [Hn [Hcat [Hp Hs]]]]]]].
  rewrite (source_B_step_insert raw st Hb Hg Hc Hn Hcat Hp Hs
             (Hvalid b eq_refl Hc n p s Hn Hp Hs)).
  right. simpl. split; [| reflexivity]. apply keys_set_absent.
  apply dict_get_None_keys. intros Hin. specialize (Hle _ Hin). lia.
Qed.

Lemma for_each_keys_exact (xs : list json) (st : merge_state) :
  well_keyed st ->
  (forall raw b, In raw xs -> ProductSourceB_init raw = Ret b ->
                 has_core_fields b = true ->
                 forall n p s, b_name b = Some n -> b_price b = Some p ->
                               b_stock b = Some s -> ProductBase_ok n p s = true) ->
  exists k,
    (k <= List.length xs)%nat
    /\ keys (transformed_products (fst (for_each xs source_B_step st)))
       = keys (transformed_products st)
         ++ map (fun i => current_max_id st + Z.of_nat i) (seq 1 k).
Proof.
  revert st. induction xs as [| x xs IH]; intros st Hwk Hvalid.
  - exists 0%nat. simpl. rewrite app_nil_r. auto.
  - pose proof (source_B_step_well_keyed x Hwk) as Hwk1.
    assert (Hx : forall b, ProductSourceB_init x = Ret b ->
                           has_core_fields b = true ->
                           forall n p s, b_name b = Some n -> b_price b = Some p ->
                                         b_stock b = Some s ->
                                         ProductBase_ok n p s = true)
      by (intros b; apply (Hvalid x b); left; reflexivity).
    pose proof (source_B_step_keys_exact x Hwk Hx) as Hkeys.
    destruct (IH _ Hwk1) as [k [Hk Hfin]].
    { intros raw b Hin. apply (Hvalid raw b). right. exact Hin. }
    assert (Hfst : fst (for_each (x :: xs) source_B_step st)
                   = fst (for_each xs source_B_step (fst (source_B_step x st)))).
    { simpl. destruct (source_B_step x st) as [s1 o1]. simpl.
      destruct (for_each xs source_B_step s1). reflexivity. }
    rewrite Hfst, Hfin.
    destruct Hkeys as [[-> ->] | [-> ->]].
    + exists k. split; [simpl; lia | reflexivity].
    + exists (S k). split; [simpl; lia |].
      rewrite <- app_assoc. f_equal. cbn [seq map app]. f_equal.
      rewrite <- (seq_shift k 1), map_map. apply map_ext. intros i. lia.
Qed.
End Bounds.

(** X14: when no new product is refused, that is when every patch carrying
    the core fields meets the constraints of [ProductBase], the new products
    receive the consecutive identifiers [m + 1, m + 2, ...] in the order of
    their patches, [m] being the greatest seeded identifier, or 0 for an
    empty seed. *)
Theorem new_identifiers_are_consecutive (P : Pydantic) (data_a data_b : list json) :
  (forall raw b, In raw data_b -> ProductSourceB_init raw = Ret b ->
                 has_core_fields b = true ->
                 forall n p s, b_name b = Some n -> b_price b = Some p ->
                               b_stock b = Some s -> ProductBase_ok n p s = true) ->
  exists out m k,
    transform_data data_a data_b = Ret out
    /\ initial_max_id (clean_and_seed data_a) = Ret m
    /\ (forall x, In x (keys (clean_and_seed data_a)) -> x <= m)
    /\ (clean_and_seed data_a = [] -> m = 0)
    /\ (clean_and_seed data_a <> [] -> In m (keys (clean_and_seed data_a)))
    /\ (k <= List.length data_b)%nat
    /\ map id out
       = keys (clean_and_seed data_a) ++ map (fun i => m + Z.of_nat i) (seq 1 k).
Proof.
  intros Hvalid. rewrite transform_data_merge.
  unfold merge_patches, merge_patches_run.
  destruct (initial_max_id_total (clean_and_seed data_a)) as [m Hm].
  rewrite Hm. simpl.
  pose proof (seed_well_keyed data_a Hm) as Hwk.
  destruct (for_each_keys_exact data_b Hwk Hvalid) as [k [Hk Hkeys]].
  pose proof (for_each_well_keyed data_b Hwk) as [_ [_ Hid]].
  simpl in Hkeys.
  eexists. exists m, k. split; [reflexivity |]. split; [reflexivity |].
  split; [apply (initial_max_id_bound _ Hm) |].
  split.
  { intros He. rewrite He in Hm. simpl in Hm. congruence. }
  split.
  { clear - Hm. destruct (clean_and_seed data_a) as [| [k0 v0] tp]; [congruence |].
    intros _. simpl in Hm. injection Hm as <-. simpl.
    destruct (fold_left_max_In (keys tp) k0) as [-> | H]; auto. }
  split; [exact Hk |].
  rewrite (values_ids _ Hid). exact Hkeys.
Qed.

Lemma new_identifiers_are_consecutive_witness :
  exists out m k,
    transform_data (P := strict) sample_data_a [watch_B; speaker_B] = Ret out
    /\ initial_max_id (clean_and_seed (P := strict) sample_data_a) = Ret m
    /\ (k <= 2)%nat
    /\ map id out
       = keys (clean_and_seed (P := strict) sample_data_a)
         ++ map (fun i => m + Z.of_nat i) (seq 1 k).
Proof.
  destruct (@new_identifiers_are_consecutive strict sample_data_a
              [watch_B; speaker_B]) as [out [m [k [H1 [H2 [_ [_ [_ [H3 H4]]]]]]]]].
  { intros raw b Hin Hb _ n p s Hn Hp Hs. simpl in Hin.
    destruct Hin as [<- | [<- | []]]; vm_compute in Hb; injection Hb as <-;
      simpl in Hn, Hp, Hs; injection Hn as <-; injection Hp as <-;
      injection Hs as <-; reflexivity. }
  exists out, m, k. auto.
Defined.

(** * Stock 0 *)

Section StockZero.
Context {P : Pydantic}.

Lemma zero_stock_not_passed (d : list (string * json)) :
  assoc "stock" d = Some (JInt 0) -> zero_price_or_stock (JDict d) <> Ret false.
Proof.
  intros Hs. unfold zero_price_or_stock, not_positive, py_get. rewrite Hs.
  destruct (assoc "price" d) as [vp |]; simpl; [| discriminate].
  destruct (py_le_zero vp) as [[|] | e]; simpl; discriminate.
Qed.
End StockZero.

(** X15: a stock of 0 is treated in two ways.  A candidate of source A
    whose stock is 0 never reaches the mapping, whatever its other fields;
    a patch that brings a new product with stock 0 and otherwise meets the
    constraints of [ProductBase] is stored, with stock 0, under the next
    identifier. *)
Theorem stock_zero_dropped_from_A_stored_from_B (P : Pydantic) :
  (forall d tp,
      assoc "stock" d = Some (JInt 0) -> fst (source_A_step (JDict d) tp) = tp)
  /\ (forall raw b st n c p,
         ProductSourceB_init raw = Ret b ->
         dict_get (product_id b) (transformed_products st) = None ->
         has_core_fields b = true ->
         b_name b = Some n -> b_category b = Some c ->
         b_price b = Some p -> b_stock b = Some 0 ->
         ProductBase_ok n p 0 = true ->
         dict_get (current_max_id st + 1)
                  (transformed_products (fst (source_B_step raw st)))
         = Some {| id := current_max_id st + 1; name := n;
                   category := standardize c; price := p; stock := 0;
                   description := b_description b; supplier := b_supplier b;
                   price_change_percentage := None |}).
Proof.
  split.
  - intros d tp Hs.
    destruct (source_A_step_cases (JDict d) tp) as [H | [a [Hz _]]]; [exact H |].
    exfalso. exact (zero_stock_not_passed d Hs Hz).
  - intros raw b st n c p Hb Hg Hc Hn Hcat Hp Hs Hok.
    rewrite (source_B_step_insert raw st Hb Hg Hc Hn Hcat Hp Hs Hok). simpl.
    apply dict_get_set_same.
Qed.

Lemma stock_zero_dropped_from_A_stored_from_B_witness :
  fst (source_A_step (P := strict) sample_a4 []) = []
  /\ dict_get 2 (transformed_products
                   (fst (source_B_step (P := strict) sold_out_B seeded)))
     = Some {| id := 2; name := "Speaker"; category := "Аудіотехніка";
               price := 50; stock := 0; description := None; supplier := None;
               price_change_percentage := None |}.
Proof.
  destruct (stock_zero_dropped_from_A_stored_from_B strict) as [HA HB].
  split.
  - unfold sample_a4. apply HA. reflexivity.
  - exact (HB sold_out_B
              {| product_id := 8; b_name := Some "Speaker";
                 b_category := Some "Audio"; b_description := None;
                 b_supplier := None; old_price := None;
                 b_price := Some 50%float; b_stock := Some 0 |}
              seeded "Speaker" "Audio" 50%float
              eq_refl eq_refl eq_refl eq_refl eq_refl eq_refl eq_refl eq_refl).
Defined.

(** * The seed as a filter, and patches delivered twice *)

Lemma dict_set_absent (k : Z) (v : ConsolidatedProduct) (d : products) :
  ~ In k (keys d) -> dict_set k v d = d ++ [(k, v)].
Proof.
  induction d as [| [k' v'] d IH]; simpl; [reflexivity |].
  intros H. destruct (Z.eqb_spec k k') as [-> | Hne]; [tauto |].
  rewrite IH by tauto. reflexivity.
Qed.

Section SeedAsFilter.
Context {P : Pydantic}.

Lemma source_A_step_accept (raw : json) (tp : products) :
  fst (source_A_step raw tp) =
  match accept raw with
  | Some a => dict_set (a_id a) (consolidated_of a) tp
  | None => tp
  end.
Proof.
  unfold accept.
  destruct (zero_price_or_stock raw) as [[|] | e] eqn:Hz.
  - destruct (source_A_step_skip raw tp Hz) as [i [_ ->]]. reflexivity.
  - destruct (ProductSourceA_init raw) as [a | e] eqn:Ha.
    + rewrite (source_A_step_valid raw tp Hz Ha). reflexivity.
    + rewrite (source_A_step_invalid raw tp Hz Ha). reflexivity.
  - rewrite (source_A_step_guard_raise raw tp Hz). reflexivity.
Qed.

Lemma for_each_A_distinct (xs : list json) (tp : products) :
  NoDup (keys tp ++ map a_id (accepted_candidates xs)) ->
  fst (for_each xs source_A_step tp)
  = tp ++ map (fun a => (a_id a, consolidated_of a)) (accepted_candidates xs).
Proof.
  revert tp. induction xs as [| x xs IH]; intros tp Hnd; simpl.
  - rewrite app_nil_r. reflexivity.
  - pose proof (source_A_step_accept x tp) as Hstep.
    destruct (source_A_step x tp) as [s1 o1]. simpl in Hstep. subst s1.
    assert (Hfst : forall s, fst (let (s'', out') := for_each xs source_A_step s in
                                  (s'', o1 ++ out'))
                             = fst (for_each xs source_A_step s))
      by (intros s; destruct (for_each xs source_A_step s); reflexivity).
    rewrite Hfst. simpl in Hnd. revert Hnd.
    destruct (accept x) as [a |]; intros Hnd.
    + simpl in Hnd.
      assert (Hfresh : ~ In (a_id a) (keys tp)).
      { apply NoDup_remove_2 in Hnd. intros Hin. apply Hnd.
        apply in_or_app. left. exact Hin. }
      rewrite (dict_set_absent _ _ _ Hfresh). rewrite IH.
      * rewrite <- app_assoc. reflexivity.
      * unfold keys. rewrite map_app. simpl. rewrite <- app_assoc. simpl.
        exact Hnd.
    + apply IH, Hnd.
Qed.
End SeedAsFilter.

(** X16: when the candidates that source A takes have distinct identifiers,
    cleaning is a filter: the seeded mapping, and with no patch the result
    of [transform_data], holds exactly those candidates, in their input
    order, each with its category rewritten. *)
Theorem cleaning_is_a_filter (P : Pydantic) (data_a : list json) :
  NoDup (map a_id (accepted_candidates data_a)) ->
  clean_and_seed data_a
  = map (fun a => (a_id a, consolidated_of a)) (accepted_candidates data_a)
  /\ transform_data data_a []
     = Ret (map consolidated_of (accepted_candidates data_a)).
Proof.
  intros Hnd.
  assert (Hseed : clean_and_seed data_a
                  = map (fun a => (a_id a, consolidated_of a))
                        (accepted_candidates data_a)).
  { unfold clean_and_seed, clean_and_seed_run.
    rewrite for_each_A_distinct; [reflexivity | exact Hnd]. }
  split; [exact Hseed |].
  rewrite transform_data_merge. unfold merge_patches, merge_patches_run.
  destruct (initial_max_id_total (clean_and_seed data_a)) as [m ->]. simpl.
  rewrite Hseed. unfold values. rewrite map_map. reflexivity.
Qed.

Lemma cleaning_is_a_filter_witness :
  NoDup (map a_id (accepted_candidates (P := strict) sample_data_a))
  /\ transform_data (P := strict) sample_data_a []
     = Ret (map consolidated_of (accepted_candidates (P := strict) sample_data_a))
  /\ List.length (accepted_candidates (P := strict) sample_data_a) = 2%nat.
Proof.
  assert (Hnd : NoDup (map a_id (accepted_candidates (P := strict) sample_data_a))).
  { vm_compute. repeat constructor; simpl; intuition discriminate. }
  split; [exact Hnd |]. split; [| reflexivity].
  exact (proj2 (@cleaning_is_a_filter strict sample_data_a Hnd)).
Defined.

(** X17: a patch for an existing record can be delivered twice: applying
    it to the record it has already updated changes nothing more, provided
    the price it carries, if any, is a number (not NaN). *)
Theorem update_twice_is_update_once (P : Pydantic) (raw : json)
    (b : ProductSourceB) (ex : ConsolidatedProduct) (st : merge_state) :
  ProductSourceB_init raw = Ret b ->
  dict_get (product_id b) (transformed_products st) = Some ex ->
  (forall p, b_price b = Some p -> PrimFloat.eqb p p = true) ->
  update_existing (update_existing ex b) b = update_existing ex b
  /\ fst (source_B_step raw (fst (source_B_step raw st)))
     = fst (source_B_step raw st).
Proof.
  intros Hb Hg Hnum.
  assert (Hupd : update_existing (update_existing ex b) b = update_existing ex b).
  { unfold update_existing. cbn [name category description supplier price stock
                                  price_change_percentage id].
    assert (Hn : forall A (o : option string) (f : string -> A) (keep : A),
               if_truthy o f (if_truthy o f keep) = if_truthy o f keep).
    { intros A [[| c s] |] f keep; reflexivity. }
    rewrite !Hn. f_equal.
    - destruct (b_price b); reflexivity.
    - destruct (b_stock b); reflexivity.
    - destruct (b_price b) as [p |] eqn:Hp; destruct (old_price b) as [o |];
        cbn [negb andb].
      + destruct (negb (PrimFloat.eqb o 0) && negb (PrimFloat.eqb p o));
          reflexivity.
      + rewrite (Hnum p eq_refl). cbn [negb]. rewrite andb_false_r. reflexivity.
      + destruct (negb (PrimFloat.eqb o 0)
                  && negb (PrimFloat.eqb (price ex) o)); reflexivity.
      + destruct (negb (PrimFloat.eqb (price ex) 0)
                  && negb (PrimFloat.eqb (price ex) (price ex))); reflexivity. }
  split; [exact Hupd |].
  rewrite (source_B_step_update raw st Hb Hg). cbn [fst].
  erewrite source_B_step_update;
    [| exact Hb | cbn [set_products transformed_products]; apply dict_get_set_same].
  cbn [fst]. unfold set_products. cbn [transformed_products current_max_id].
  rewrite Hupd. f_equal.
  clear. induction (transformed_products st) as [| [k v] d IH]; simpl.
  - rewrite Z.eqb_refl. reflexivity.
  - destruct (product_id b =? k) eqn:E; simpl; rewrite ?Z.eqb_refl, ?E;
      [reflexivity | f_equal; exact IH].
Qed.

Lemma update_twice_is_update_once_witness :
  ProductSourceB_init (P := strict) cheaper_B = Ret cheaper
  /\ dict_get (product_id cheaper) (transformed_products seeded) = Some laptop
  /\ fst (source_B_step (P := strict) cheaper_B
            (fst (source_B_step (P := strict) cheaper_B seeded)))
     = fst (source_B_step (P := strict) cheaper_B seeded).
Proof.
  split; [reflexivity |]. split; [reflexivity |].
  apply (@update_twice_is_update_once strict cheaper_B cheaper laptop seeded
           eq_refl eq_refl).
  intros p Hp. injection Hp as <-. reflexivity.
Defined.

(** X18: a patch for a new product delivered twice gives two products: when
    its [product_id] is neither in the mapping nor the identifier about to
    be assigned, the second delivery is stored again, under the identifier
    after the first. *)
Theorem insert_twice_stores_twice (P : Pydantic) (raw : json) (b : ProductSourceB)
    (st : merge_state) (n c : string) (p : float) (s : Z) :
  well_keyed st ->
  ProductSourceB_init raw = Ret b ->
  dict_get (product_id b) (transformed_products st) = None ->
  product_id b <> current_max_id st + 1 ->
  has_core_fields b = true ->
  b_name b = Some n -> b_category b = Some c ->
  b_price b = Some p -> b_stock b = Some s ->
  ProductBase_ok n p s = true ->
  let record := fun i =>
    {| id := i; name := n; category := standardize c; price := p; stock := s;
       description := b_description b; supplier := b_supplier b;
       price_change_percentage := None |} in
  let st2 := fst (source_B_step raw (fst (source_B_step raw st))) in
  keys (transformed_products st2)
  = keys (transformed_products st)
    ++ [current_max_id st + 1; current_max_id st + 2]
  /\ dict_get (current_max_id st + 1) (transformed_products st2)
     = Some (record (current_max_id st + 1))
  /\ dict_get (current_max_id st + 2) (transformed_products st2)
     = Some (record (current_max_id st + 2)).
Proof.
  intros [_ [Hle _]] Hb Hg Hne Hc Hn Hcat Hp Hs Hok record st2.
  assert (Hfresh : forall k, current_max_id st < k ->
                             ~ In k (keys (transformed_products st))).
  { intros k Hk Hin. specialize (Hle _ Hin). lia. }
  unfold st2. rewrite (source_B_step_insert raw st Hb Hg Hc Hn Hcat Hp Hs Hok).
  cbn [fst]. fold (record (current_max_id st + 1)).
  set (st1 := set_products
                (dict_set (current_max_id st + 1) (record (current_max_id st + 1)))
                (next_id st)).
  assert (Hg1 : dict_get (product_id b) (transformed_products st1) = None).
  { unfold st1. simpl. rewrite dict_get_set_other by congruence. exact Hg. }
  rewrite (source_B_step_insert raw st1 Hb Hg1 Hc Hn Hcat Hp Hs Hok).
  cbn [fst]. unfold st1. simpl.
  replace (current_max_id st + 1 + 1) with (current_max_id st + 2) by lia.
  fold (record (current_max_id st + 2)).
  assert (H1 : dict_get (current_max_id st + 1) (transformed_products st) = None)
    by (apply dict_get_None_keys, Hfresh; lia).
  assert (H2 : dict_get (current_max_id st + 2)
                 (dict_set (current_max_id st + 1)
                    (record (current_max_id st + 1)) (transformed_products st))
               = None).
  { rewrite dict_get_set_other by lia. apply dict_get_None_keys, Hfresh. lia. }
  split.
  { rewrite (keys_set_absent _ _ _ H2), (keys_set_absent _ _ _ H1).
    rewrite <- app_assoc. reflexivity. }
  split.
  - rewrite dict_get_set_other by lia. apply dict_get_set_same.
  - apply dict_get_set_same.
Qed.

Lemma seeded_well_keyed : well_keyed seeded.
Proof.
  unfold well_keyed, seeded. simpl. split; [| split].
  - repeat constructor. simpl. tauto.
  - intros k [<- | []]. lia.
  - intros k r [H | []]. injection H as <- <-. reflexivity.
Qed.

Lemma insert_twice_stores_twice_witness :
  keys (transformed_products
          (fst (source_B_step (P := strict) speaker_B
                  (fst (source_B_step (P := strict) speaker_B seeded)))))
  = [1; 2; 3]
  /\ dict_get 3 (transformed_products
                   (fst (source_B_step (P := strict) speaker_B
                           (fst (source_B_step (P := strict) speaker_B seeded)))))
     = Some (speaker 3).
Proof.
  destruct (@insert_twice_stores_twice strict speaker_B
              {| product_id := 8; b_name := Some "Speaker";
                 b_category := Some "Audio"; b_description := None;
                 b_supplier := None; old_price := None;
                 b_price := Some 50%float; b_stock := Some 3 |}
              seeded "Speaker" "Audio" 50%float 3 seeded_well_keyed
              eq_refl eq_refl ltac:(simpl; lia) eq_refl eq_refl eq_refl eq_refl
              eq_refl eq_refl) as [Hkeys [_ H3]].
  split; [exact Hkeys | exact H3].
Defined.
